(** * Event-study backtester: a shallow embedding of [src/backtester.py]

    The development models the class [BiotechEventBacktester]:
    its constructor, [fetch_market_data] (the log-return / [dropna] step
    applied to the downloaded price table), [calculate_expected_return]
    and [run_event_study], and, in module [Pipeline], the class
    [BiotechTrialPipeline] of [src/data_pipeline.py].

    Modelling conventions.
    - Python integers are [Z]; row positions handed to [iloc] are [Z]
      (they may be negative), positions inside a table are [nat].
    - Floating-point returns are idealised as exact rationals [Q].  A
      missing value ([NaN]) is [None] in a table of [option Q].
    - A pandas [DataFrame] is a list of column labels, a row index of
      timestamps, and a cell function: the table is rectangular, as in
      pandas.
    - The object state ([self.market_data], [self.results]) is passed
      explicitly; an uncaught Python exception is the [Raise] outcome.
    - An event row is modelled twice: as an [Event], whose date has been
      parsed, and, in module [Raw], as the row the caller gives, whose
      date cell is a text that [pd.to_datetime] may refuse. *)

From Stdlib Require Import ZArith QArith List Bool Lia Sorted.
From Stdlib Require Import Qfield.
From Stdlib Require String.
Import ListNotations.

Import String.StringSyntax.

Abbreviation string := String.string.

Local Open Scope string_scope.
Local Open Scope Z_scope.

(* ================================================================== *)
(** ** Outcomes of fallible code *)

(** The exception classes that matter.  [KeyError], [AttributeError],
    [TypeError] and [ValueError] are the ones pandas / scikit-learn can
    raise in the modelled code; [InsufficientDataError] and
    [OutOfRangeError] are the names the specification uses, so that the
    statements about them can be written down. *)
Inductive exn : Type :=
| KeyError
| AttributeError
| TypeError
| ValueError
| InsufficientDataError
| OutOfRangeError.

Inductive result (A : Type) : Type :=
| Ok (a : A)
| Raise (e : exn).
Arguments Ok {A} a.
Arguments Raise {A} e.

(* ================================================================== *)
(** ** Tables *)

(** A [pd.Timestamp], as a day number. *)
Definition Timestamp : Type := Z.

Record DataFrame (A : Type) : Type := mkDataFrame {
  columns : list string;          (* [df.columns] *)
  index   : list Timestamp;       (* [df.index]   *)
  cell    : string -> nat -> A    (* value of column [c] at row position [i] *)
}.
Arguments mkDataFrame {A} _ _ _.
Arguments columns {A} _.
Arguments index {A} _.
Arguments cell {A} _ _ _.

(** [len(df)] *)
Definition nrows {A} (df : DataFrame A) : nat := length (index df).

(** [label in df.columns] *)
Definition has_column {A} (df : DataFrame A) (c : string) : bool :=
  existsb (String.eqb c) (columns df).

(** [df[c]]: the column as a sequence of values, [KeyError] when the
    label is unknown. *)
Definition getitem {A} (df : DataFrame A) (c : string) : result (list A) :=
  if has_column df c
  then Ok (map (cell df c) (seq 0 (nrows df)))
  else Raise KeyError.

(* ------------------------------------------------------------------ *)
(** *** Positional slicing: [s.iloc[start:stop]] *)

(** Python's normalisation of one slice bound against a length [n]:
    a negative bound counts from the end, and both cases are clamped to
    [0 .. n]. *)
Definition slice_bound (n i : Z) : Z :=
  if i <? 0 then Z.max 0 (n + i) else Z.min i n.

(** Row positions selected by [iloc[start:stop]] on [n] rows. *)
Definition slice_positions (n : nat) (start stop : Z) : list nat :=
  let s := slice_bound (Z.of_nat n) start in
  let e := slice_bound (Z.of_nat n) stop in
  seq (Z.to_nat s) (Z.to_nat (e - s)).

(** [s.iloc[start:stop]]; never raises. *)
Definition iloc {A} (s : list A) (start stop : Z) : list A :=
  let n := Z.of_nat (length s) in
  let b := slice_bound n start in
  let e := slice_bound n stop in
  firstn (Z.to_nat (e - b)) (skipn (Z.to_nat b) s).

(* ------------------------------------------------------------------ *)
(** *** Looking a date up in the index: [df.index.get_loc(date)] *)

Fixpoint positions_of (d : Timestamp) (l : list Timestamp) (i : Z) : list Z :=
  match l with
  | [] => []
  | x :: l' => if x =? d then i :: positions_of d l' (i + 1)
               else positions_of d l' (i + 1)
  end.

(** [idx.is_monotonic_increasing]: no label is smaller than the one
    before it. *)
Fixpoint is_monotonic_increasing (l : list Timestamp) : bool :=
  match l with
  | x :: ((y :: _) as rest) => (x <=? y) && is_monotonic_increasing rest
  | _ => true
  end.

(** [get_loc] returns an integer for a label that occurs once and raises
    [KeyError] for a label that does not occur.  For a label that occurs
    several times it returns no integer: a slice when the index is
    monotonic increasing, a boolean mask otherwise. *)
Inductive loc : Type :=
| LocInt (i : Z)
| LocKeyError
| LocSlice
| LocMask.

Definition get_loc (idx : list Timestamp) (d : Timestamp) : loc :=
  match positions_of d idx 0 with
  | [] => LocKeyError
  | [i] => LocInt i
  | _ => if is_monotonic_increasing idx then LocSlice else LocMask
  end.

(* ================================================================== *)
(** ** Series arithmetic over [Q] *)

Local Open Scope Q_scope.

(** [s.sum()] *)
Definition Qsum (l : list Q) : Q := fold_right Qplus 0 l.

(** [a + (b * s)] with scalars [a], [b]: broadcast over the series. *)
Definition affine (a b : Q) (s : list Q) : list Q :=
  map (fun m => a + b * m) s.

(** [s1 - s2] for two series over the same rows. *)
Fixpoint series_sub (s1 s2 : list Q) : list Q :=
  match s1, s2 with
  | x :: s1', y :: s2' => (x - y) :: series_sub s1' s2'
  | _, _ => []
  end.

Definition Qmean (l : list Q) : Q :=
  Qsum l / inject_Z (Z.of_nat (length l)).

Fixpoint cross (xm ym : Q) (X y : list Q) : Q :=
  match X, y with
  | x :: X', v :: y' => (x - xm) * (v - ym) + cross xm ym X' y'
  | _, _ => 0
  end.

(** [LinearRegression().fit(X, y)] for one regressor: ordinary least
    squares with an intercept, returned as [(intercept_, coef_)], in
    exact arithmetic.  scikit-learn refuses an empty sample with
    [ValueError].  The values are those of the exact least-squares line;
    the floating-point fit agrees with them up to rounding only, and on
    a regressor that is constant (where the exact centred design is
    zero and this definition gives the slope [0], division by zero in
    [Q] being [0]) rounding in the centring can give the program any
    slope.  Nothing below is stated about the digits of a fit. *)
Definition LinearRegression_fit (X y : list Q) : result (Q * Q) :=
  match X with
  | [] => Raise ValueError
  | _ :: _ =>
      let xm := Qmean X in
      let ym := Qmean y in
      let coef := cross xm ym X y / cross xm xm X X in
      Ok (ym - coef * xm, coef)
  end.

Local Close Scope Q_scope.

(* ================================================================== *)
(** ** The backtester object *)

(** One row of [events_df] after line 77: the [event_date] cell has been
    turned into a timestamp by [pd.to_datetime].  The row as the caller
    gives it, whose date cell may fail to parse, is [Raw.Row] below. *)
Record Event : Type := mkEvent {
  ticker        : string;
  event_date    : Timestamp;
  quality_score : string;
  catalyst_type : string
}.

(** The dictionary appended to [self.results]. *)
Record ResultRecord : Type := mkResult {
  Ticker        : string;
  Event_Date    : Timestamp;
  Quality_Score : string;
  CAR           : Q;
  Real_Return   : Q
}.

Record Backtester : Type := mkBacktester {
  benchmark_ticker  : string;
  estimation_window : Z;
  event_window      : Z * Z;
  market_data       : option (DataFrame Q);
  results           : list ResultRecord
}.

(** [__init__] *)
Definition init (benchmark : string) (est : Z) (ew : Z * Z) : Backtester :=
  mkBacktester benchmark est ew None [].

Definition default_backtester : Backtester := init "XBI" 60 (-5, 1).

Definition set_market_data (self : Backtester) (md : DataFrame Q) : Backtester :=
  mkBacktester (benchmark_ticker self) (estimation_window self)
               (event_window self) (Some md) (results self).

Definition set_results (self : Backtester) (rs : list ResultRecord) : Backtester :=
  mkBacktester (benchmark_ticker self) (estimation_window self)
               (event_window self) (market_data self) rs.

(** Bounds of the estimation window, lines 51-52. *)
Definition est_start (self : Backtester) (event_date_idx : Z) : Z :=
  event_date_idx - estimation_window self - Z.abs (fst (event_window self)).

Definition est_end (self : Backtester) (event_date_idx : Z) : Z :=
  event_date_idx - Z.abs (fst (event_window self)).

(** [calculate_expected_return]: [Ok None] is the [return None] of
    line 55, [Ok (Some (alpha, beta))] the tuple of line 66. *)
Definition calculate_expected_return (self : Backtester) (md : DataFrame Q)
    (stock_ticker : string) (event_date_idx : Z) : result (option (Q * Q)) :=
  let s := est_start self event_date_idx in
  let e := est_end self event_date_idx in
  if s <? 0 then Ok None
  else
    match getitem md stock_ticker with
    | Raise ex => Raise ex
    | Ok ycol =>
        match getitem md (benchmark_ticker self) with
        | Raise ex => Raise ex
        | Ok xcol =>
            match LinearRegression_fit (iloc xcol s e) (iloc ycol s e) with
            | Raise ex => Raise ex
            | Ok (alpha, beta) => Ok (Some (alpha, beta))
            end
        end
    end.

(** Bounds of the trade window, lines 95-96. *)
Definition win_start (self : Backtester) (event_idx : Z) : Z :=
  event_idx + fst (event_window self).

Definition win_end (self : Backtester) (event_idx : Z) : Z :=
  event_idx + snd (event_window self).

(** What one iteration of the loop of [run_event_study] does. *)
Inductive outcome : Type :=
| Skipped                        (* [continue] *)
| Processed (r : ResultRecord)   (* [self.results.append(...)] *)
| Raised (e : exn).              (* an exception leaves the loop *)

(** Lines 95-119, once [alpha] and [beta] are known.  The float sums and
    products are taken in exact arithmetic. *)
Definition trade_window_record (self : Backtester) (md : DataFrame Q)
    (ev : Event) (event_idx : Z) (alpha beta : Q) : outcome :=
  let ws := win_start self event_idx in
  let we := win_end self event_idx in
  match getitem md (ticker ev) with
  | Raise ex => Raised ex
  | Ok col =>
      let real_returns := iloc col ws (we + 1) in
      match getitem md (benchmark_ticker self) with
      | Raise ex => Raised ex
      | Ok bcol =>
          let market_returns := iloc bcol ws (we + 1) in
          let expected_returns := affine alpha beta market_returns in
          let abnormal_returns := series_sub real_returns expected_returns in
          let car := Qsum abnormal_returns in
          Processed (mkResult (ticker ev) (event_date ev) (quality_score ev)
                              car (Qsum real_returns))
      end
  end.

(** The body of the loop from line 78 on, for a row whose date cell
    line 77 has parsed; [Raw.process_row] below is the whole body, line
    77 included.  When [get_loc] does not return an integer (a date
    that occurs several times in the index), the subtraction of line 51
    fails on a slice with [TypeError], and the test of line 54 fails on
    the array made from a mask with [ValueError]; neither is caught. *)
Definition process_event (self : Backtester) (ev : Event) : outcome :=
  match market_data self with
  | None => Raised AttributeError
  | Some md =>
      if negb (has_column md (ticker ev)) then Skipped
      else
        match get_loc (index md) (event_date ev) with
        | LocKeyError => Skipped
        | LocSlice => Raised TypeError
        | LocMask => Raised ValueError
        | LocInt event_idx =>
            match calculate_expected_return self md (ticker ev) event_idx with
            | Raise ex => Raised ex
            | Ok None => Skipped
            | Ok (Some (alpha, beta)) =>
                trade_window_record self md ev event_idx alpha beta
            end
        end
  end.

(** The loop of [run_event_study] over the rows still to visit, their
    dates parsed.  The configuration and the market data are read from
    [self]; only [self.results] changes, so the list is threaded
    through.  The first component is [self.results] when the loop is
    left, the second the exception that left it, if any. *)
Fixpoint iterrows (self : Backtester) (rows : list Event)
    (acc : list ResultRecord) : list ResultRecord * option exn :=
  match rows with
  | [] => (acc, None)
  | ev :: rest =>
      match process_event self ev with
      | Skipped => iterrows self rest acc
      | Processed r => iterrows self rest (acc ++ [r])
      | Raised ex => (acc, Some ex)
      end
  end.

(** [run_event_study] on rows whose dates have been parsed: the object
    after the call, and either the frame built from [self.results] or
    the exception that escaped.  [Raw.run_event_study] is the method on
    the rows as given. *)
Definition run_event_study (self : Backtester) (events_df : list Event)
    : Backtester * result (list ResultRecord) :=
  let '(rs, err) := iterrows self events_df (results self) in
  (set_results self rs,
   match err with
   | None => Ok rs
   | Some ex => Raise ex
   end).

(* ================================================================== *)
(** ** The rows as the caller gives them *)

Module Raw.

(** One row of [events_df], a frame with the four columns the loop
    reads: the [event_date] cell is a text. *)
Record Row : Type := mkRow {
  r_ticker        : string;
  r_event_date    : string;
  r_quality_score : string;
  r_catalyst_type : string
}.

Section ToDatetime.

(** [pd.to_datetime] on one cell: the timestamp the text denotes, or
    the exception raised for a text that is no date.  ([NaT] counts as
    a timestamp: it is looked up in the index like any other.) *)
Variable pd_to_datetime : string -> result Timestamp.

(** Lines 76-78: the cells are read and the date is parsed, before any
    test and outside the [try]. *)
Definition to_event (row : Row) : result Event :=
  match pd_to_datetime (r_event_date row) with
  | Raise ex => Raise ex
  | Ok date =>
      Ok (mkEvent (r_ticker row) date (r_quality_score row)
                  (r_catalyst_type row))
  end.

(** The body of the loop, lines 76-119. *)
Definition process_row (self : Backtester) (row : Row) : outcome :=
  match to_event row with
  | Raise ex => Raised ex
  | Ok ev => process_event self ev
  end.

(** The loop of [run_event_study], lines 75-119. *)
Fixpoint iterrows (self : Backtester) (rows : list Row)
    (acc : list ResultRecord) : list ResultRecord * option exn :=
  match rows with
  | [] => (acc, None)
  | row :: rest =>
      match process_row self row with
      | Skipped => iterrows self rest acc
      | Processed r => iterrows self rest (acc ++ [r])
      | Raised ex => (acc, Some ex)
      end
  end.

(** [run_event_study], lines 68-121. *)
Definition run_event_study (self : Backtester) (events_df : list Row)
    : Backtester * result (list ResultRecord) :=
  let '(rs, err) := iterrows self events_df (results self) in
  (set_results self rs,
   match err with
   | None => Ok rs
   | Some ex => Raise ex
   end).

(** The rows with their dates parsed, when all of them parse. *)
Fixpoint to_events (rows : list Row) : result (list Event) :=
  match rows with
  | [] => Ok []
  | row :: rest =>
      match to_event row, to_events rest with
      | Ok ev, Ok evs => Ok (ev :: evs)
      | Raise ex, _ => Raise ex
      | _, Raise ex => Raise ex
      end
  end.

End ToDatetime.

End Raw.

(* ================================================================== *)
(** ** Building the market data: [fetch_market_data] *)

(** [data / data.shift(1)] followed by [np.log], cell by cell.  Row 0
    has no predecessor, so [shift] leaves [NaN] there; a [NaN] operand
    gives [NaN].  [log_ratio p q] stands for [np.log(p / q)] on two
    present prices, [None] when the float result is [NaN].  A return is
    a rational here: the infinite returns a zero price gives, which
    [dropna] keeps, are outside this table type. *)
Definition log_returns (log_ratio : Q -> Q -> option Q)
    (data : DataFrame (option Q)) : DataFrame (option Q) :=
  mkDataFrame (columns data) (index data)
    (fun c i =>
       match i with
       | O => None
       | S j =>
           match cell data c i, cell data c j with
           | Some p, Some q => log_ratio p q
           | _, _ => None
           end
       end).

(** A row survives [dropna()] when none of its cells is [NaN]. *)
Definition row_complete (df : DataFrame (option Q)) (i : nat) : bool :=
  forallb (fun c => match cell df c i with Some _ => true | None => false end)
          (columns df).

Definition kept_rows (df : DataFrame (option Q)) : list nat :=
  filter (row_complete df) (seq 0 (nrows df)).

(** [df.dropna()]: the surviving rows, renumbered from 0. *)
Definition dropna (df : DataFrame (option Q)) : DataFrame Q :=
  let kept := kept_rows df in
  mkDataFrame (columns df)
    (map (fun i => nth i (index df) 0) kept)
    (fun c k => match cell df c (nth k kept O) with
                | Some v => v
                | None => 0%Q
                end).

Section FetchMarketData.

(** [yf.download(all_tickers, start=..., end=..., progress=False)['Adj Close']]:
    the provider is outside the program; it answers with a price table
    or fails. *)
Variable yf_download :
  list string -> Timestamp -> Timestamp -> result (DataFrame (option Q)).

Variable log_ratio : Q -> Q -> option Q.

(** [fetch_market_data], lines 35-41. *)
Definition fetch_market_data (self : Backtester) (tickers : list string)
    (start_date end_date : Timestamp) : result Backtester :=
  let all_tickers := tickers ++ [benchmark_ticker self] in
  match yf_download all_tickers start_date end_date with
  | Raise ex => Raise ex
  | Ok data => Ok (set_market_data self (dropna (log_returns log_ratio data)))
  end.

End FetchMarketData.

(* ================================================================== *)
(** ** Sample data used to instantiate the statements *)

Module Sample.

Fixpoint assoc {A} (c : string) (cols : list (string * A)) : option A :=
  match cols with
  | [] => None
  | (k, v) :: rest => if String.eqb c k then Some v else assoc c rest
  end.

(** A table given column by column. *)
Definition frame_of {A} (d : A) (idx : list Timestamp)
    (cols : list (string * list A)) : DataFrame A :=
  mkDataFrame (map fst cols) idx
    (fun c i => match assoc c cols with
                | Some l => nth i l d
                | None => d
                end).

(** Six trading days, one security [X] and the benchmark [B]. *)
Definition md6 : DataFrame Q :=
  frame_of 0%Q [10; 11; 12; 13; 14; 15]
    [ ("X", [0; 0; 1#100; 2#100; 3#100; 4#100]%Q);
      ("B", [1#100; 2#100; 0; 0; 0; 0]%Q) ].

(** Estimation over 2 days, trade window one day either side. *)
Definition bt6 : Backtester :=
  set_market_data (init "B" 2 (-1, 1)) md6.

Definition ev_mid  : Event := mkEvent "X" 13 "High" "PHASE3".
Definition ev_late : Event := mkEvent "X" 14 "Low" "PHASE3".
Definition ev_last : Event := mkEvent "X" 15 "Low" "PHASE3".
Definition ev_early : Event := mkEvent "X" 11 "High" "PHASE3".
Definition ev_unknown_ticker : Event := mkEvent "ZZ" 13 "High" "PHASE3".
Definition ev_unknown_date : Event := mkEvent "X" 99 "High" "PHASE3".

(** Eight trading days; [md8'] differs from [md8] in row 5 of [X] only. *)
Definition md8 : DataFrame Q :=
  frame_of 0%Q [20; 21; 22; 23; 24; 25; 26; 27]
    [ ("X", [0; 0; 0; 0; 0; 1#100; 3#100; 0]%Q);
      ("B", [0; 0; 0; 0; 0; 1#100; 2#100; 0]%Q) ].

Definition md8' : DataFrame Q :=
  frame_of 0%Q [20; 21; 22; 23; 24; 25; 26; 27]
    [ ("X", [0; 0; 0; 0; 0; 2#100; 3#100; 0]%Q);
      ("B", [0; 0; 0; 0; 0; 1#100; 2#100; 0]%Q) ].

(** The default configuration, before any data is fetched. *)
Definition bt_fresh : Backtester := init "B" 60 (-5, 1).

(** A configuration with a negative estimation length and a trade
    window that begins after the event. *)
Definition bt_neg : Backtester := init "B" (-6) (2, 3).

(** A price table with a gap: [X] has no price on day 3. *)
Definition prices : DataFrame (option Q) :=
  frame_of None [1; 2; 3; 4; 5]
    [ ("X", [Some (10#1); Some (11#1); None; Some (12#1); Some (13#1)]%Q);
      ("B", [Some (20#1); Some (21#1); Some (22#1); Some (23#1); Some (24#1)]%Q) ].

(** A price table with a single day: no return can be formed. *)
Definition one_day : DataFrame (option Q) :=
  frame_of None [1] [ ("X", [Some (10#1)]%Q); ("B", [Some (20#1)]%Q) ].

(** A stand-in for the logarithm of a price ratio that stays in [Q]:
    the simple return [p / q - 1], [NaN] when the ratio is not
    positive. *)
Definition simple_log_ratio (p q : Q) : option Q :=
  if Qle_bool (p / q) 0 then None else Some (p / q - 1)%Q.

Definition download_prices (_ : list string) (_ _ : Timestamp)
    : result (DataFrame (option Q)) := Ok prices.

Definition download_one_day (_ : list string) (_ _ : Timestamp)
    : result (DataFrame (option Q)) := Ok one_day.

End Sample.

(* ================================================================== *)
(** ** Vocabulary of the statements *)

(** The event yields a record. *)
Definition processable (self : Backtester) (ev : Event) : bool :=
  match process_event self ev with
  | Processed _ => true
  | _ => false
  end.

(** The event makes the loop raise. *)
Definition raises (self : Backtester) (ev : Event) : bool :=
  match process_event self ev with
  | Raised _ => true
  | _ => false
  end.

Definition none_raises (self : Backtester) (evs : list Event) : bool :=
  forallb (fun ev => negb (raises self ev)) evs.

(** The records the events of one call give rise to, in input order. *)
Definition record_of (self : Backtester) (ev : Event) : list ResultRecord :=
  match process_event self ev with
  | Processed r => [r]
  | _ => []
  end.

Definition emitted (self : Backtester) (evs : list Event) : list ResultRecord :=
  flat_map (record_of self) evs.

(** The inclusive range of positions [win_start .. win_end]. *)
Definition trade_window (self : Backtester) (event_idx : Z) : list nat :=
  seq (Z.to_nat (win_start self event_idx))
      (Z.to_nat (win_end self event_idx - win_start self event_idx + 1)).

(** The rows [iloc] hands to the regression. *)
Definition estimation_rows (self : Backtester) (md : DataFrame Q)
    (event_idx : Z) : list nat :=
  slice_positions (nrows md) (est_start self event_idx) (est_end self event_idx).

(** Per-day quantities of the market model. *)
Definition realized_return (md : DataFrame Q) (ev : Event) (i : nat) : Q :=
  cell md (ticker ev) i.

Definition expected_return (self : Backtester) (md : DataFrame Q)
    (alpha beta : Q) (i : nat) : Q :=
  (alpha + beta * cell md (benchmark_ticker self) i)%Q.

Definition abnormal_return (self : Backtester) (md : DataFrame Q) (ev : Event)
    (alpha beta : Q) (i : nat) : Q :=
  (realized_return md ev i - expected_return self md alpha beta i)%Q.

(** The table [md] holds the aligned returns of the price table [data]:
    the two have the same column labels; the rows of [md] are, in
    order, the rows of [data] in which every column has a return; the
    date at a stored position is the date of its raw row; every column
    has a price on that row and on the one before, and the stored value
    is the return formed from the two; every column read from [md] is as
    long as the index, and a slice of it reads stored positions only. *)
Definition aligned (log_ratio : Q -> Q -> option Q)
    (data : DataFrame (option Q)) (md : DataFrame Q) : Prop :=
  let lr := log_returns log_ratio data in
  columns md = columns data /\
  length (kept_rows lr) = nrows md /\
  StronglySorted lt (kept_rows lr) /\
  (forall i, In i (kept_rows lr) <->
             (i < nrows data)%nat /\
             forall c, In c (columns data) -> cell lr c i <> None) /\
  (forall k i, nth_error (kept_rows lr) k = Some i ->
     nth_error (index md) k = nth_error (index data) i /\
     forall c, In c (columns data) ->
       cell lr c i = Some (cell md c k) /\
       exists j p q,
         i = S j /\ cell data c i = Some p /\ cell data c j = Some q /\
         log_ratio p q = Some (cell md c k)) /\
  (forall c col start stop, getitem md c = Ok col ->
     length col = length (index md) /\
     iloc col start stop = map (cell md c) (slice_positions (nrows md) start stop) /\
     forall k, In k (slice_positions (nrows md) start stop) ->
               exists i, nth_error (kept_rows lr) k = Some i).

(** Two tables with the same labels and index whose cells agree on every
    row before position [k]. *)
Definition agree_before (k : Z) (md md' : DataFrame Q) : Prop :=
  columns md' = columns md /\
  index md' = index md /\
  forall c i, Z.of_nat i < k -> cell md' c i = cell md c i.

(* ================================================================== *)
(** ** The trial pipeline: [src/data_pipeline.py] *)

Module Pipeline.

(** A decoded JSON document, as [response.json()] returns it. *)
#[local] Set Warnings "-register-all".
Inductive json : Type :=
| JNull
| JBool (b : bool)
| JNum (q : Q)
| JStr (s : string)
| JArr (items : list json)
| JObj (fields : list (string * json)).

(** A small error monad for code that may raise. *)
Definition bind {A B} (m : result A) (k : A -> result B) : result B :=
  match m with
  | Ok a => k a
  | Raise ex => Raise ex
  end.

Notation "x <- m ;; k" := (bind m (fun x => k))
  (at level 61, m at next level, right associativity).

Fixpoint dict_lookup (k : string) (fields : list (string * json)) : option json :=
  match fields with
  | [] => None
  | (k', v) :: rest => if String.eqb k k' then Some v else dict_lookup k rest
  end.

(** [d.get(k, default)]; only a dict has the method. *)
Definition dict_get (d : json) (k : string) (default : json) : result json :=
  match d with
  | JObj fields =>
      Ok (match dict_lookup k fields with
          | Some v => v
          | None => default
          end)
  | _ => Raise AttributeError
  end.

(** Python truth value of a decoded JSON value. *)
Definition truthy (j : json) : bool :=
  match j with
  | JNull => false
  | JBool b => b
  | JNum q => negb (Qeq_bool q 0)
  | JStr s => negb (String.eqb s "")
  | JArr items => match items with [] => false | _ => true end
  | JObj fields => match fields with [] => false | _ => true end
  end.

(** The characters of a string, each as a string.  A [string] holds
    the UTF-8 bytes of the Python text, so a character is a lead byte
    together with the continuation bytes (of the form [10xxxxxx]) that
    follow it. *)
Definition is_continuation (c : Ascii.ascii) : bool :=
  match c with
  | Ascii.Ascii _ _ _ _ _ _ b6 b7 => b7 && negb b6
  end.

(** The continuation bytes a string begins with, and the characters
    after them. *)
Fixpoint chars_from (s : string) : string * list string :=
  match s with
  | String.EmptyString => (String.EmptyString, [])
  | String.String c rest =>
      let '(pending, l) := chars_from rest in
      if is_continuation c then (String.String c pending, l)
      else (String.EmptyString, String.String c pending :: l)
  end.

Definition chars (s : string) : list string :=
  let '(pending, l) := chars_from s in
  match pending with
  | String.EmptyString => l
  | _ => pending :: l
  end.

(** [sep.join(parts)] on strings. *)
Fixpoint join (sep : string) (parts : list string) : string :=
  match parts with
  | [] => ""
  | [x] => x
  | x :: rest => String.append x (String.append sep (join sep rest))
  end.

Fixpoint str_items (items : list json) : result (list string) :=
  match items with
  | [] => Ok []
  | JStr s :: rest => tl_ <- str_items rest ;; Ok (s :: tl_)
  | _ :: _ => Raise TypeError
  end.

(** [sep.join(v)] on a decoded value: a list must hold strings only; a
    string is iterated by character and a dict by key; anything else is
    not iterable. *)
Definition join_value (sep : string) (v : json) : result string :=
  match v with
  | JArr items => parts <- str_items items ;; Ok (join sep parts)
  | JStr s => Ok (join sep (chars s))
  | JObj fields => Ok (join sep (map fst fields))
  | _ => Raise TypeError
  end.

(** The values a [for] loop (and [len]) sees in a decoded value. *)
Definition iterate (v : json) : result (list json) :=
  match v with
  | JArr items => Ok items
  | JStr s => Ok (map JStr (chars s))
  | JObj fields => Ok (map (fun kv => JStr (fst kv)) fields)
  | _ => Raise TypeError
  end.

(** The dictionary appended to [self.trials_data], lines 71-78. *)
Record Trial : Type := mkTrial {
  nct_id          : json;
  title           : json;
  sponsor         : json;
  completion_date : json;
  phase           : string;
  status          : json
}.

(** The body of the loop over the studies, lines 48-78. *)
Definition extract_trial (study : json) : result Trial :=
  protocol <- dict_get study "protocolSection" (JObj []) ;;
  ident <- dict_get protocol "identificationModule" (JObj []) ;;
  nct <- dict_get ident "nctId" (JStr "N/A") ;;
  ident' <- dict_get protocol "identificationModule" (JObj []) ;;
  official <- dict_get ident' "officialTitle" (JStr "N/A") ;;
  sponsor_module <- dict_get protocol "sponsorCollaboratorsModule" (JObj []) ;;
  lead <- dict_get sponsor_module "leadSponsor" (JObj []) ;;
  lead_sponsor <- dict_get lead "name" (JStr "N/A") ;;
  status_module <- dict_get protocol "statusModule" (JObj []) ;;
  primary <- dict_get status_module "primaryCompletionDateStruct" (JObj []) ;;
  date1 <- dict_get primary "date" JNull ;;
  completion <-
    (if truthy date1 then Ok date1
     else
       final <- dict_get status_module "completionDateStruct" (JObj []) ;;
       dict_get final "date" JNull) ;;
  design_module <- dict_get protocol "designModule" (JObj []) ;;
  phases <- dict_get design_module "phases" (JArr []) ;;
  phase_text <- (if truthy phases then join_value ", " phases else Ok "N/A") ;;
  overall <- dict_get status_module "overallStatus" (JStr "N/A") ;;
  Ok (mkTrial nct official lead_sponsor completion phase_text overall).

(** A frame built by pandas: [pd.DataFrame()] and a frame built from an
    empty list of records have no column; any other frame has its
    columns, with or without rows. *)
Inductive Frame (R : Type) : Type :=
| NoColumns
| Table (rows : list R).
Arguments NoColumns {R}.
Arguments Table {R} rows.

(** [pd.DataFrame(records)] *)
Definition DataFrame_of_records {R} (records : list R) : Frame R :=
  match records with
  | [] => NoColumns
  | _ :: _ => Table records
  end.

Record BiotechTrialPipeline : Type := mkPipeline {
  base_url    : string;
  trials_data : list Trial
}.

(** [__init__] *)
Definition init : BiotechTrialPipeline :=
  mkPipeline "https://clinicaltrials.gov/api/v2/studies" [].

(** The query sent to the registry, lines 30-36. *)
Record Params : Type := mkParams {
  query_cond   : string;
  query_phase  : string;
  filter_overallStatus : string;
  pageSize     : Z;
  format       : string
}.

(** What [requests.get], [raise_for_status] and [response.json()]
    together give: a [RequestException], or the decoded body. *)
Inductive HttpOutcome : Type :=
| RequestException
| Body (data : json).

(** The loop of lines 47-78: trials are appended one by one, so those
    appended before an exception stay in [self.trials_data]. *)
Fixpoint collect (studies : list json) (acc : list Trial)
    : list Trial * option exn :=
  match studies with
  | [] => (acc, None)
  | study :: rest =>
      match extract_trial study with
      | Ok t => collect rest (acc ++ [t])
      | Raise ex => (acc, Some ex)
      end
  end.

Section Fetch.

Variable requests_get : string -> Params -> HttpOutcome.

(** [fetch_trials_by_condition] *)
Definition fetch_trials_by_condition (self : BiotechTrialPipeline)
    (condition phase_filter : string) (max_results : Z)
    : BiotechTrialPipeline * result (Frame Trial) :=
  let params :=
    mkParams condition phase_filter
             "COMPLETED,ACTIVE_NOT_RECRUITING,RECRUITING"
             (Z.min max_results 1000) "json" in
  match requests_get (base_url self) params with
  | RequestException => (self, Ok NoColumns)
  | Body data =>
      match studies_ <- dict_get data "studies" (JArr []) ;; iterate studies_ with
      | Raise ex => (self, Raise ex)
      | Ok studies =>
          let '(acc, err) := collect studies (trials_data self) in
          (mkPipeline (base_url self) acc,
           match err with
           | Some ex => Raise ex
           | None => Ok (DataFrame_of_records acc)
           end)
      end
  end.

End Fetch.

(** A row of the mapping file: the [sponsor] cell, a string, and the
    [ticker] cell, [NaN] when it is empty. *)
Definition MappingRow : Type := (string * option string)%type.

(** What [pd.read_csv(mapping_file)] gives. *)
Inductive CsvOutcome : Type :=
| FileNotFoundError
| Csv (mapping : list MappingRow).

(** The tickers a left merge on [sponsor] attaches to one sponsor name,
    restricted to those that are present (line 121): one per matching
    row of the mapping, in the order of the mapping. *)
Fixpoint tickers_of (name : string) (mapping : list MappingRow) : list string :=
  match mapping with
  | [] => []
  | (s, tk) :: rest =>
      match String.eqb name s, tk with
      | true, Some t => t :: tickers_of name rest
      | _, _ => tickers_of name rest
      end
  end.

Section Mapping.

(** The rows of the trials frame, whose [sponsor] column holds
    strings. *)
Variable R : Type.
Variable sponsor_of : R -> string.

Variable read_csv : string -> CsvOutcome.

(** [map_sponsors_to_tickers]: each returned row is a trial with the
    ticker attached to it; the order of the trials is kept. *)
Definition map_sponsors_to_tickers (trials_df : Frame R)
    (mapping_file : string) : result (Frame (R * string)) :=
  match read_csv mapping_file with
  | FileNotFoundError => Ok NoColumns
  | Csv mapping =>
      match trials_df with
      | NoColumns => Raise KeyError
      | Table trials =>
          Ok (Table (flat_map
                       (fun r => map (fun t => (r, t))
                                     (tickers_of (sponsor_of r) mapping))
                       trials))
      end
  end.

End Mapping.

(** An instant, in nanoseconds since the epoch.  pandas keeps instants
    and durations as signed 64-bit counts of nanoseconds, the least
    value standing for [NaT]. *)
Definition Instant : Type := Z.

Definition int64_max : Z := 9223372036854775807.

Definition in_bounds (ns : Z) : bool :=
  (- int64_max <=? ns) && (ns <=? int64_max).

(** A parsed column: its dates carry a time zone, or none does. *)
Inductive DatetimeColumn : Type :=
| Naive (dates : list (option Instant))
| Aware (dates : list (option Instant)).

(** Rows in the order of their dates. *)
Definition by_date {R} (a b : R * Instant) : Prop := snd a <= snd b.

(** The rows whose parsed date lies in [today, future_cutoff]; a date
    that could not be parsed ([NaT]) compares false. *)
Fixpoint select_upcoming {R} (today cutoff : Instant)
    (rows : list R) (dates : list (option Instant)) : list (R * Instant) :=
  match rows, dates with
  | r :: rows', Some d :: dates' =>
      if (today <=? d) && (d <=? cutoff)
      then (r, d) :: select_upcoming today cutoff rows' dates'
      else select_upcoming today cutoff rows' dates'
  | _ :: rows', None :: dates' => select_upcoming today cutoff rows' dates'
  | _, _ => []
  end.

Section Upcoming.

Variable R : Type.

(** The [completion_date] cell of a row, when the frame has such a
    column. *)
Variable completion_date_of : option (R -> json).

(** [pd.to_datetime(column, errors='coerce')], on the whole column:
    a cell that is no date becomes [NaT]; the call itself may still
    raise. *)
Variable to_datetime : list json -> result DatetimeColumn.

(** [pd.Timestamp.now()], which carries no time zone. *)
Variable now : Instant.

(** The exception pandas raises for a duration or an instant outside
    the 64-bit range of nanoseconds. *)
Variable out_of_bounds : exn.

(** [frame.sort_values('completion_date')] on the selected rows; the
    order among equal dates is not fixed. *)
Variable sort_values : list (R * Instant) -> list (R * Instant).

(** [pd.Timedelta(days=n)] *)
Definition Timedelta_days (n : Z) : result Z :=
  let ns := n * 86400000000000 in
  if in_bounds ns then Ok ns else Raise out_of_bounds.

(** [timestamp + timedelta] *)
Definition Timestamp_add (t : Instant) (delta : Z) : result Instant :=
  if in_bounds (t + delta) then Ok (t + delta) else Raise out_of_bounds.

(** [filter_upcoming_events]: the rows returned carry their parsed
    date.  Comparing a column that carries a time zone with [today],
    which carries none, raises [TypeError]. *)
Definition filter_upcoming_events (trials_df : Frame R) (days_ahead : Z)
    : result (Frame (R * Instant)) :=
  match trials_df with
  | NoColumns => Raise KeyError
  | Table rows =>
      match completion_date_of with
      | None => Raise KeyError
      | Some cell_of =>
          column <- to_datetime (map cell_of rows) ;;
          let today := now in
          delta <- Timedelta_days days_ahead ;;
          future_cutoff <- Timestamp_add today delta ;;
          match column with
          | Aware _ => Raise TypeError
          | Naive dates =>
              let upcoming := select_upcoming today future_cutoff rows dates in
              Ok (Table (sort_values upcoming))
          end
      end
  end.

End Upcoming.

End Pipeline.

(* ================================================================== *)
(** ** Sample registry answers and mapping files *)

Module PipelineSample.

Import Pipeline.

(** A study with all its modules. *)
Definition study_full : json :=
  JObj [("protocolSection",
         JObj [("identificationModule",
                JObj [("nctId", JStr "NCT001");
                      ("officialTitle", JStr "A trial")]);
               ("sponsorCollaboratorsModule",
                JObj [("leadSponsor", JObj [("name", JStr "Pfizer")])]);
               ("statusModule",
                JObj [("primaryCompletionDateStruct",
                       JObj [("date", JStr "2030-01-15")]);
                      ("completionDateStruct",
                       JObj [("date", JStr "2031-06-01")]);
                      ("overallStatus", JStr "RECRUITING")]);
               ("designModule",
                JObj [("phases", JArr [JStr "PHASE2"; JStr "PHASE3"])])])].

(** A study without any module. *)
Definition study_bare : json := JObj [].

Definition trial_full : Trial :=
  mkTrial (JStr "NCT001") (JStr "A trial") (JStr "Pfizer")
          (JStr "2030-01-15") "PHASE2, PHASE3" (JStr "RECRUITING").

Definition trial_bare : Trial :=
  mkTrial (JStr "N/A") (JStr "N/A") (JStr "N/A") JNull "N/A" (JStr "N/A").

Definition registry_ok (_ : string) (_ : Params) : HttpOutcome :=
  Body (JObj [("studies", JArr [study_full; study_bare])]).

(** The second study of the answer is a number, not an object. *)
Definition registry_bad (_ : string) (_ : Params) : HttpOutcome :=
  Body (JObj [("studies", JArr [study_full; JNum 1; study_bare])]).

Definition registry_down (_ : string) (_ : Params) : HttpOutcome :=
  RequestException.

Definition sponsor_text (t : Trial) : string :=
  match sponsor t with
  | JStr s => s
  | _ => ""
  end.

Definition mapping : list MappingRow :=
  [("Pfizer", Some "PFE"); ("Acme Bio", None); ("Eli Lilly and Company", Some "LLY")].

Definition csv_present (_ : string) : CsvOutcome := Csv mapping.
Definition csv_missing (_ : string) : CsvOutcome := FileNotFoundError.

(** Rows that are just a name, with the date text as their cell. *)
Definition date_cell (name : string) : json := JStr name.

(** A column parser that knows three texts. *)
Definition parse_known (cells : list json) : result DatetimeColumn :=
  Ok (Naive
        (map (fun c => match c with
                       | JStr "soon" => Some (5 * 86400000000000)
                       | JStr "later" => Some (90 * 86400000000000)
                       | JStr "far" => Some (400 * 86400000000000)
                       | _ => None
                       end) cells)).

(** A sort by date to stand for [sort_values]: insertion into a list
    sorted by date. *)
Fixpoint insert_by_date {R} (x : R * Instant) (l : list (R * Instant))
    : list (R * Instant) :=
  match l with
  | [] => [x]
  | y :: rest =>
      if snd x <=? snd y then x :: l else y :: insert_by_date x rest
  end.

Definition sort_by_date {R} (l : list (R * Instant)) : list (R * Instant) :=
  fold_right insert_by_date [] l.

End PipelineSample.

(* ================================================================== *)
(** ** Sample rows with their date texts *)

Module RawSample.

(** A stand-in for [pd.to_datetime] that knows a few texts and fails,
    as the parser does, on anything else. *)
Definition parse (text : string) : result Timestamp :=
  match Sample.assoc text
          [ ("2024-01-10", 10); ("2024-01-11", 11); ("2024-01-12", 12);
            ("2024-01-13", 13); ("2024-01-14", 14); ("2024-01-15", 15);
            ("2030-06-01", 99) ] with
  | Some d => Ok d
  | None => Raise ValueError
  end.

Definition row_mid : Raw.Row := Raw.mkRow "X" "2024-01-13" "High" "PHASE3".
Definition row_late : Raw.Row := Raw.mkRow "X" "2024-01-14" "Low" "PHASE3".
Definition row_last : Raw.Row := Raw.mkRow "X" "2024-01-15" "Low" "PHASE3".
Definition row_early : Raw.Row := Raw.mkRow "X" "2024-01-11" "High" "PHASE3".
Definition row_unknown_date : Raw.Row :=
  Raw.mkRow "X" "2030-06-01" "High" "PHASE3".

(** A ticker that is not in the store, with a date cell that is no
    date. *)
Definition row_bad_date : Raw.Row := Raw.mkRow "ZZ" "to be announced" "High" "PHASE3".

End RawSample.

(* ================================================================== *)
(** ** Further sample objects *)

Module Edge.

(** The benchmark label ["XBI"] is not a column of the table. *)
Definition bt_nobench : Backtester :=
  set_market_data (init "XBI" 2 (-1, 1)) Sample.md6.

(** An estimation length of zero days. *)
Definition bt_zero : Backtester :=
  set_market_data (init "B" 0 (-1, 1)) Sample.md6.

(** A complete price table of four days. *)
Definition prices4 : DataFrame (option Q) :=
  Sample.frame_of None [1; 2; 3; 4]
    [ ("X", [Some (10#1); Some (11#1); Some (12#1); Some (13#1)]%Q);
      ("B", [Some (20#1); Some (21#1); Some (22#1); Some (23#1)]%Q) ].

Definition download_prices4 (_ : list string) (_ _ : Timestamp)
    : result (DataFrame (option Q)) := Ok prices4.

(** A price table in which the provider has no price at all for [B]. *)
Definition prices_no_B : DataFrame (option Q) :=
  Sample.frame_of None [1; 2; 3]
    [ ("X", [Some (10#1); Some (11#1); Some (12#1)]%Q);
      ("B", [None; None; None]) ].

Definition download_no_B (_ : list string) (_ _ : Timestamp)
    : result (DataFrame (option Q)) := Ok prices_no_B.

(** Six rows whose last date occurs twice; the index is monotonic. *)
Definition md_dup : DataFrame Q :=
  Sample.frame_of 0%Q [10; 11; 12; 13; 14; 14]
    [ ("X", [0; 0; 1#100; 2#100; 3#100; 4#100]%Q);
      ("B", [1#100; 2#100; 0; 0; 0; 0]%Q) ].

Definition bt_dup : Backtester :=
  set_market_data (init "B" 2 (-1, 1)) md_dup.

End Edge.

(* ================================================================== *)
(** * Properties *)

(** Invert an equation between constructors and substitute. *)
Ltac inv H := inversion H; subst; clear H.

(** ** The model on concrete inputs *)

(** A 100-day series, default configuration: the event at position 70
    has the estimation window [5, 65); the event at position 50 would
    start at -15. *)
Example estimation_bounds_at_70 :
  est_start default_backtester 70 = 5 /\ est_end default_backtester 70 = 65.
Proof. split; reflexivity. Qed.

Example estimation_bounds_at_50 :
  est_start default_backtester 50 = -15.
Proof. reflexivity. Qed.

Example iloc_inside : iloc [10; 11; 12; 13; 14] 1 3 = [11; 12].
Proof. reflexivity. Qed.

Example iloc_past_end : iloc [10; 11; 12; 13; 14] 3 7 = [13; 14].
Proof. reflexivity. Qed.

Example iloc_negative_stop : iloc [10; 11; 12; 13; 14] 2 (-1) = [12; 13].
Proof. reflexivity. Qed.

Example get_loc_found : get_loc [10; 11; 12] 11 = LocInt 1.
Proof. reflexivity. Qed.

Example get_loc_missing : get_loc [10; 11; 12] 13 = LocKeyError.
Proof. reflexivity. Qed.

Example run_on_sample :
  exists r1 r2,
    snd (run_event_study Sample.bt6
           [Sample.ev_unknown_ticker; Sample.ev_mid; Sample.ev_early;
            Sample.ev_unknown_date; Sample.ev_last]) = Ok [r1; r2] /\
    Event_Date r1 = 13 /\ (CAR r1 == 6 # 100)%Q /\
    Event_Date r2 = 15 /\ (CAR r2 == 4 # 100)%Q.
Proof.
  do 2 eexists. split; [vm_compute; reflexivity|].
  repeat split.
Qed.

Example aligned_sample_rows :
  kept_rows (log_returns Sample.simple_log_ratio Sample.prices) = [1; 4]%nat /\
  index (dropna (log_returns Sample.simple_log_ratio Sample.prices)) = [2; 5].
Proof. split; reflexivity. Qed.

(** ** Slices and columns *)

Lemma slice_bound_range (n i : Z) :
  0 <= n -> 0 <= slice_bound n i <= n.
Proof. unfold slice_bound; destruct (i <? 0) eqn:E; lia. Qed.

Lemma slice_bound_nonneg (n i : Z) :
  0 <= i -> slice_bound n i = Z.min i n.
Proof.
  intros Hi; unfold slice_bound.
  destruct (Z.ltb_spec i 0); [lia | reflexivity].
Qed.

Lemma firstn_seq_le (k s n : nat) :
  (k <= n)%nat -> firstn k (seq s n) = seq s k.
Proof.
  revert s n. induction k as [|k IH]; intros s n H; [reflexivity|].
  destruct n as [|n]; [lia|]. simpl. f_equal. apply IH. lia.
Qed.

Lemma firstn_skipn_seq (n b k : nat) :
  (b + k <= n)%nat -> firstn k (skipn b (seq 0 n)) = seq b k.
Proof.
  intros H. rewrite skipn_seq, firstn_seq_le by lia. reflexivity.
Qed.

(** A slice of a column is the column's cells at the selected positions. *)
Lemma iloc_column {A} (f : nat -> A) (n : nat) (start stop : Z) :
  iloc (map f (seq 0 n)) start stop = map f (slice_positions n start stop).
Proof.
  unfold iloc, slice_positions.
  rewrite length_map, length_seq.
  pose proof (slice_bound_range (Z.of_nat n) start ltac:(lia)) as Hs.
  pose proof (slice_bound_range (Z.of_nat n) stop ltac:(lia)) as He.
  set (s := slice_bound (Z.of_nat n) start) in *.
  set (e := slice_bound (Z.of_nat n) stop) in *.
  rewrite skipn_map, firstn_map, firstn_skipn_seq by lia.
  reflexivity.
Qed.

(** With a non-negative start, every selected position lies in
    [start, stop) and in the table. *)
Lemma slice_positions_bounds (n : nat) (start stop : Z) (i : nat) :
  0 <= start -> 0 <= stop ->
  In i (slice_positions n start stop) ->
  start <= Z.of_nat i < stop /\ (i < n)%nat.
Proof.
  intros Hs He. unfold slice_positions.
  rewrite !slice_bound_nonneg by assumption.
  rewrite in_seq. lia.
Qed.

(** A window whose two bounds fit in the table is selected whole. *)
Lemma slice_positions_inside (n : nat) (start stop : Z) :
  0 <= start -> 0 <= stop <= Z.of_nat n ->
  slice_positions n start stop = seq (Z.to_nat start) (Z.to_nat (stop - start)).
Proof.
  intros Hs He. unfold slice_positions.
  rewrite !slice_bound_nonneg by lia.
  destruct (Z.le_gt_cases start (Z.of_nat n)) as [Hle | Hgt].
  - rewrite !Z.min_l by lia. reflexivity.
  - rewrite Z.min_r, Z.min_l by lia.
    replace (Z.to_nat (stop - Z.of_nat n)) with O by lia.
    replace (Z.to_nat (stop - start)) with O by lia.
    reflexivity.
Qed.

(** A window that runs past the last row is cut at the last row. *)
Lemma slice_positions_overrun (n : nat) (start stop : Z) :
  0 <= start -> Z.of_nat n <= stop ->
  slice_positions n start stop = seq (Z.to_nat start) (n - Z.to_nat start).
Proof.
  intros Hs He. unfold slice_positions.
  rewrite !slice_bound_nonneg by lia.
  rewrite (Z.min_r stop) by lia.
  destruct (Z.le_gt_cases start (Z.of_nat n)) as [Hle | Hgt].
  - rewrite Z.min_l by lia. f_equal. lia.
  - rewrite Z.min_r by lia.
    replace (Z.to_nat (Z.of_nat n - Z.of_nat n)) with O by lia.
    replace (n - Z.to_nat start)%nat with O by lia.
    reflexivity.
Qed.

(** Whatever the bounds, a slice selects rows of the table only. *)
Lemma slice_positions_lt (n : nat) (start stop : Z) (i : nat) :
  In i (slice_positions n start stop) -> (i < n)%nat.
Proof.
  unfold slice_positions.
  pose proof (slice_bound_range (Z.of_nat n) start ltac:(lia)).
  pose proof (slice_bound_range (Z.of_nat n) stop ltac:(lia)).
  rewrite in_seq. lia.
Qed.

Lemma getitem_Ok {A} (df : DataFrame A) (c : string) (col : list A) :
  getitem df c = Ok col ->
  has_column df c = true /\ col = map (cell df c) (seq 0 (nrows df)).
Proof.
  unfold getitem. destruct (has_column df c); [|discriminate].
  intros H; inversion H; auto.
Qed.

Lemma getitem_has {A} (df : DataFrame A) (c : string) :
  has_column df c = true ->
  getitem df c = Ok (map (cell df c) (seq 0 (nrows df))).
Proof. unfold getitem. intros ->. reflexivity. Qed.

(** ** The index lookup *)

Lemma positions_of_range (d : Timestamp) (l : list Timestamp) (i x : Z) :
  In x (positions_of d l i) -> i <= x < i + Z.of_nat (length l).
Proof.
  revert i. induction l as [|y l IH]; intros i; simpl; [tauto|].
  destruct (y =? d).
  - intros [<- | Hin]; [lia | apply IH in Hin; lia].
  - intros Hin. apply IH in Hin. lia.
Qed.

Lemma get_loc_range (idx : list Timestamp) (d : Timestamp) (pos : Z) :
  get_loc idx d = LocInt pos -> 0 <= pos < Z.of_nat (length idx).
Proof.
  unfold get_loc. intros H.
  apply (positions_of_range d idx 0 pos).
  revert H.
  destruct (positions_of d idx 0) as [|a [|b l]];
    [ discriminate | | destruct (is_monotonic_increasing idx); discriminate ].
  intros H. inversion H. left. reflexivity.
Qed.

(** ** Inversion of the two methods *)

Lemma calculate_expected_return_Some self md tk idx alpha beta :
  calculate_expected_return self md tk idx = Ok (Some (alpha, beta)) ->
  0 <= est_start self idx /\
  has_column md tk = true /\
  has_column md (benchmark_ticker self) = true /\
  LinearRegression_fit
    (map (cell md (benchmark_ticker self))
         (slice_positions (nrows md) (est_start self idx) (est_end self idx)))
    (map (cell md tk)
         (slice_positions (nrows md) (est_start self idx) (est_end self idx)))
  = Ok (alpha, beta).
Proof.
  unfold calculate_expected_return.
  destruct (Z.ltb_spec (est_start self idx) 0) as [|Hs]; [discriminate|].
  destruct (getitem md tk) as [ycol|] eqn:Hy; [|discriminate].
  destruct (getitem md (benchmark_ticker self)) as [xcol|] eqn:Hx; [|discriminate].
  apply getitem_Ok in Hy as [Hy ->]. apply getitem_Ok in Hx as [Hx ->].
  rewrite !iloc_column.
  destruct (LinearRegression_fit _ _) as [[a b]|] eqn:Hfit; [|discriminate].
  intros H; inv H. auto.
Qed.

Lemma process_event_Processed self ev r :
  process_event self ev = Processed r ->
  exists md pos alpha beta,
    market_data self = Some md /\
    has_column md (ticker ev) = true /\
    get_loc (index md) (event_date ev) = LocInt pos /\
    calculate_expected_return self md (ticker ev) pos = Ok (Some (alpha, beta)) /\
    trade_window_record self md ev pos alpha beta = Processed r.
Proof.
  unfold process_event.
  destruct (market_data self) as [md|]; [|discriminate].
  destruct (has_column md (ticker ev)) eqn:Hc; simpl; [|discriminate].
  destruct (get_loc (index md) (event_date ev)) as [pos| | |] eqn:Hl;
    try discriminate.
  destruct (calculate_expected_return self md (ticker ev) pos)
    as [[[alpha beta]|]|] eqn:Hcalc; try discriminate.
  intros H. exists md, pos, alpha, beta. auto.
Qed.

(** The record built for the trade window, cell by cell. *)
Lemma trade_window_record_cells self md ev pos alpha beta :
  has_column md (ticker ev) = true ->
  has_column md (benchmark_ticker self) = true ->
  let rows := slice_positions (nrows md) (win_start self pos) (win_end self pos + 1) in
  trade_window_record self md ev pos alpha beta =
  Processed
    (mkResult (ticker ev) (event_date ev) (quality_score ev)
       (Qsum (map (fun i => cell md (ticker ev) i
                            - (alpha + beta * cell md (benchmark_ticker self) i))%Q
                  rows))
       (Qsum (map (cell md (ticker ev)) rows))).
Proof.
  intros Ht Hb rows. unfold trade_window_record.
  rewrite (getitem_has _ _ Ht), (getitem_has _ _ Hb), !iloc_column.
  fold rows. do 3 f_equal.
  unfold affine. induction rows as [|i rows IH]; simpl; [reflexivity|].
  now rewrite IH.
Qed.

(** ** Membership tests *)

Lemma has_column_false {A} (df : DataFrame A) (c : string) :
  ~ In c (columns df) -> has_column df c = false.
Proof.
  unfold has_column. intros Hn.
  destruct (existsb (String.eqb c) (columns df)) eqn:E; [|reflexivity].
  apply existsb_exists in E as (x & Hin & Heq).
  apply String.eqb_eq in Heq. subst x. contradiction.
Qed.

Lemma positions_of_absent (d : Timestamp) (l : list Timestamp) (i : Z) :
  ~ In d l -> positions_of d l i = [].
Proof.
  revert i. induction l as [|x l IH]; intros i Hn; simpl; [reflexivity|].
  destruct (Z.eqb_spec x d) as [->|_].
  - exfalso. apply Hn. left. reflexivity.
  - apply IH. intros Hin. apply Hn. right. exact Hin.
Qed.

Lemma get_loc_absent (idx : list Timestamp) (d : Timestamp) :
  ~ In d idx -> get_loc idx d = LocKeyError.
Proof. intros H. unfold get_loc. rewrite positions_of_absent; auto. Qed.

(** ** The loop *)

Lemma process_event_set_results self rs ev :
  process_event (set_results self rs) ev = process_event self ev.
Proof. reflexivity. Qed.

Lemma iterrows_skip self ev before after acc :
  process_event self ev = Skipped ->
  iterrows self (before ++ ev :: after) acc = iterrows self (before ++ after) acc.
Proof.
  intros Hs. revert acc.
  induction before as [|e before IH]; intros acc; simpl.
  - rewrite Hs. reflexivity.
  - destruct (process_event self e); auto.
Qed.

Lemma iterrows_none_raises self evs acc :
  none_raises self evs = true ->
  iterrows self evs acc = (acc ++ emitted self evs, None).
Proof.
  revert acc. induction evs as [|ev evs IH]; intros acc H; simpl.
  - rewrite app_nil_r. reflexivity.
  - simpl in H. apply andb_prop in H as [Hev Hrest].
    unfold raises in Hev. unfold record_of.
    destruct (process_event self ev) as [|r|e]; simpl.
    + apply IH, Hrest.
    + rewrite IH by exact Hrest. rewrite <- app_assoc. reflexivity.
    + discriminate.
Qed.

Lemma run_event_study_none_raises self evs :
  none_raises self evs = true ->
  run_event_study self evs =
  (set_results self (results self ++ emitted self evs),
   Ok (results self ++ emitted self evs)).
Proof.
  intros H. unfold run_event_study.
  rewrite iterrows_none_raises by exact H. reflexivity.
Qed.

Lemma emitted_set_results self rs evs :
  emitted (set_results self rs) evs = emitted self evs.
Proof. reflexivity. Qed.

Lemma emitted_filter self evs :
  Forall2 (fun ev r => process_event self ev = Processed r)
          (filter (processable self) evs) (emitted self evs).
Proof.
  induction evs as [|ev evs IH]; simpl; [constructor|].
  unfold processable, record_of.
  destruct (process_event self ev) as [|r|e] eqn:E; simpl;
    [exact IH | | exact IH].
  constructor; [exact E | exact IH].
Qed.

(* ================================================================== *)
(** ** Events that cannot be processed *)

Lemma insufficient_history_None self md tk pos :
  pos - Z.abs (fst (event_window self)) - estimation_window self < 0 ->
  calculate_expected_return self md tk pos = Ok None.
Proof.
  intros H. unfold calculate_expected_return, est_start.
  destruct (Z.ltb_spec (pos - estimation_window self
                        - Z.abs (fst (event_window self))) 0);
    [reflexivity | lia].
Qed.

(** Once its date is parsed, an event whose ticker is not a column, or
    whose date is not in the index, or which has too little history, is
    skipped. *)
Lemma parsed_event_is_skipped
    (self : Backtester) (md : DataFrame Q) (ev : Event) :
  market_data self = Some md ->
  ( ~ In (ticker ev) (columns md)
    \/ ~ In (event_date ev) (index md)
    \/ exists pos,
         get_loc (index md) (event_date ev) = LocInt pos /\
         pos - Z.abs (fst (event_window self)) - estimation_window self < 0 ) ->
  process_event self ev = Skipped.
Proof.
  intros Hmd Hcase.
  unfold process_event. rewrite Hmd.
  destruct (has_column md (ticker ev)) eqn:Hc; [simpl | reflexivity].
  destruct Hcase as [Ht | [Hd | (pos & Hl & Hlt)]].
  - rewrite (has_column_false _ _ Ht) in Hc. discriminate.
  - rewrite (get_loc_absent _ _ Hd). reflexivity.
  - rewrite Hl, (insufficient_history_None self md _ pos Hlt). reflexivity.
Qed.

Module RawFacts.

Section WithParser.

Variable pd_to_datetime : string -> result Timestamp.

Lemma process_row_parsed self row date :
  pd_to_datetime (Raw.r_event_date row) = Ok date ->
  Raw.process_row pd_to_datetime self row
  = process_event self
      (mkEvent (Raw.r_ticker row) date (Raw.r_quality_score row)
               (Raw.r_catalyst_type row)).
Proof.
  intros H. unfold Raw.process_row, Raw.to_event. rewrite H. reflexivity.
Qed.

Lemma process_row_unparsable self row e :
  pd_to_datetime (Raw.r_event_date row) = Raise e ->
  Raw.process_row pd_to_datetime self row = Raised e.
Proof.
  intros H. unfold Raw.process_row, Raw.to_event. rewrite H. reflexivity.
Qed.

Lemma iterrows_skip_row self row before after acc :
  Raw.process_row pd_to_datetime self row = Skipped ->
  Raw.iterrows pd_to_datetime self (before ++ row :: after) acc
  = Raw.iterrows pd_to_datetime self (before ++ after) acc.
Proof.
  intros Hs. revert acc.
  induction before as [|r before IH]; intros acc; simpl.
  - rewrite Hs. reflexivity.
  - destruct (Raw.process_row pd_to_datetime self r); auto.
Qed.

(** A run over rows that all parse is the run over the parsed rows. *)
Lemma iterrows_parsed self rows evs acc :
  Raw.to_events pd_to_datetime rows = Ok evs ->
  Raw.iterrows pd_to_datetime self rows acc = iterrows self evs acc.
Proof.
  revert evs acc. induction rows as [|row rows IH]; intros evs acc; simpl.
  - intros H. inv H. reflexivity.
  - unfold Raw.process_row.
    destruct (Raw.to_event pd_to_datetime row) as [ev|e]; [|discriminate].
    destruct (Raw.to_events pd_to_datetime rows) as [evs'|e]; [|discriminate].
    intros H. inv H. simpl.
    destruct (process_event self ev); auto.
Qed.

Lemma run_event_study_parsed self rows evs :
  Raw.to_events pd_to_datetime rows = Ok evs ->
  Raw.run_event_study pd_to_datetime self rows = run_event_study self evs.
Proof.
  intros H. unfold Raw.run_event_study, run_event_study.
  rewrite (iterrows_parsed self rows evs _ H). reflexivity.
Qed.

(** When the rows before a row all parse and none of them raises, the
    loop reaches that row with their records appended. *)
Lemma iterrows_reach self before rest evs acc :
  Raw.to_events pd_to_datetime before = Ok evs ->
  none_raises self evs = true ->
  Raw.iterrows pd_to_datetime self (before ++ rest) acc
  = Raw.iterrows pd_to_datetime self rest (acc ++ emitted self evs).
Proof.
  revert evs acc. induction before as [|row before IH]; intros evs acc; simpl.
  - intros H _. inv H. simpl. rewrite app_nil_r. reflexivity.
  - unfold Raw.process_row.
    destruct (Raw.to_event pd_to_datetime row) as [ev|e]; [|discriminate].
    destruct (Raw.to_events pd_to_datetime before) as [evs'|e]; [|discriminate].
    intros H Hnr. inv H. simpl in Hnr. apply andb_prop in Hnr as [Hev Hrest].
    unfold raises in Hev. simpl. unfold record_of.
    destruct (process_event self ev) as [|r|e]; simpl.
    + apply IH; [reflexivity | exact Hrest].
    + rewrite (IH evs' _ eq_refl Hrest), <- app_assoc. reflexivity.
    + discriminate.
Qed.

(** C3 (amended).  A row whose date cell [pd.to_datetime] parses, and
    whose ticker is not a column of the market data, or whose parsed
    date does not occur in the trading-date index, or whose date occurs
    once, at a position [pos] with
    [pos - |lead_days| - estimation_window < 0] (in which case
    [calculate_expected_return] returns [None] and does not raise), is
    skipped: it yields no record and no exception, and the run over a
    sequence containing it is the run over the sequence without it, so
    the remaining rows are treated as if it had not been there. *)
Theorem unprocessable_row_is_skipped
    (self : Backtester) (md : DataFrame Q) (row : Raw.Row) (date : Timestamp) :
  market_data self = Some md ->
  pd_to_datetime (Raw.r_event_date row) = Ok date ->
  ( ~ In (Raw.r_ticker row) (columns md)
    \/ ~ In date (index md)
    \/ exists pos,
         get_loc (index md) date = LocInt pos /\
         pos - Z.abs (fst (event_window self)) - estimation_window self < 0 ) ->
  (forall tk pos,
      pos - Z.abs (fst (event_window self)) - estimation_window self < 0 ->
      calculate_expected_return self md tk pos = Ok None) /\
  Raw.process_row pd_to_datetime self row = Skipped /\
  forall before after,
    Raw.run_event_study pd_to_datetime self (before ++ row :: after)
    = Raw.run_event_study pd_to_datetime self (before ++ after).
Proof.
  intros Hmd Hdate Hcase.
  assert (Hskip : Raw.process_row pd_to_datetime self row = Skipped).
  { rewrite (process_row_parsed self row date Hdate).
    apply (parsed_event_is_skipped self md); [exact Hmd | exact Hcase]. }
  split; [intros tk pos; apply insufficient_history_None|].
  split; [exact Hskip|].
  intros before after. unfold Raw.run_event_study.
  rewrite (iterrows_skip_row self row before after _ Hskip). reflexivity.
Qed.

End WithParser.

Lemma unprocessable_row_is_skipped_witness :
  Raw.process_row RawSample.parse Sample.bt6 RawSample.row_early = Skipped /\
  Raw.run_event_study RawSample.parse Sample.bt6
    [RawSample.row_mid; RawSample.row_early; RawSample.row_last]
  = Raw.run_event_study RawSample.parse Sample.bt6
      [RawSample.row_mid; RawSample.row_last].
Proof.
  pose proof (unprocessable_row_is_skipped RawSample.parse
                Sample.bt6 Sample.md6 RawSample.row_early 11
                eq_refl eq_refl
                (or_intror (or_intror (ex_intro _ 1 (conj eq_refl eq_refl)))))
    as (_ & Hskip & Hrun).
  split; [exact Hskip | exact (Hrun [RawSample.row_mid] [RawSample.row_last])].
Defined.

(** C3 (as stated) fails in two ways.  A row whose ticker is absent
    from the store but whose date cell is no date makes line 77 raise,
    before the ticker is looked at and outside the [try]: the run is
    aborted and the processable row after it yields no record.  And a
    date that occurs twice in the index resolves to no exact position:
    [get_loc] returns a slice, line 51 raises [TypeError], and the run
    is aborted as well. *)
Lemma unparsable_or_repeated_date_aborts_run :
  (~ In (Raw.r_ticker RawSample.row_bad_date) (columns Sample.md6) /\
   RawSample.parse (Raw.r_event_date RawSample.row_bad_date) = Raise ValueError /\
   (exists r, Raw.process_row RawSample.parse Sample.bt6 RawSample.row_mid
              = Processed r) /\
   Raw.run_event_study RawSample.parse Sample.bt6
     [RawSample.row_bad_date; RawSample.row_mid]
   = (set_results Sample.bt6 [], Raise ValueError)) /\
  (RawSample.parse (Raw.r_event_date RawSample.row_late) = Ok 14 /\
   get_loc (index Edge.md_dup) 14 = LocSlice /\
   snd (Raw.run_event_study RawSample.parse Edge.bt_dup
          [RawSample.row_late; RawSample.row_mid])
   = Raise TypeError).
Proof.
  split.
  - split; [simpl; intros [H | [H | []]]; discriminate H|].
    split; [reflexivity|].
    split; [eexists; vm_compute; reflexivity | reflexivity].
  - repeat split.
Qed.

End RawFacts.

(* ================================================================== *)
(** ** The start of the trade window *)

Lemma model_implies_processed self md ev pos alpha beta :
  market_data self = Some md ->
  get_loc (index md) (event_date ev) = LocInt pos ->
  calculate_expected_return self md (ticker ev) pos = Ok (Some (alpha, beta)) ->
  process_event self ev = trade_window_record self md ev pos alpha beta.
Proof.
  intros Hmd Hl Hc.
  destruct (calculate_expected_return_Some _ _ _ _ _ _ Hc) as (_ & Ht & _).
  unfold process_event. rewrite Hmd, Ht, Hl, Hc. reflexivity.
Qed.

Lemma win_start_nonneg self idx :
  0 <= estimation_window self -> 0 <= est_start self idx ->
  0 <= win_start self idx.
Proof. unfold est_start, win_start. lia. Qed.

(** C10.  With [estimation_window >= 0] and [lead_days <= 0], whenever
    [calculate_expected_return] returns a model for an event (so
    [est_start >= 0]), the start [event_idx + lead_days] of the trade
    window is non-negative: the slice of the trade window normalises its
    start by the non-negative branch, never by counting from the end of
    the series, and this is the case for the record the event emits. *)
Theorem trade_window_start_never_negative
    (self : Backtester) (md : DataFrame Q) (ev : Event) (pos : Z)
    (alpha beta : Q) :
  0 <= estimation_window self ->
  fst (event_window self) <= 0 ->
  market_data self = Some md ->
  get_loc (index md) (event_date ev) = LocInt pos ->
  calculate_expected_return self md (ticker ev) pos = Ok (Some (alpha, beta)) ->
  0 <= est_start self pos /\
  0 <= win_start self pos /\
  (win_start self pos <? 0) = false /\
  (forall n, slice_bound n (win_start self pos) = Z.min (win_start self pos) n) /\
  exists r, process_event self ev = Processed r.
Proof.
  intros Hest _ Hmd Hl Hc.
  destruct (calculate_expected_return_Some _ _ _ _ _ _ Hc) as (Hs & Ht & Hb & _).
  pose proof (win_start_nonneg self pos Hest Hs) as Hw.
  repeat split; try assumption.
  - apply Z.ltb_ge. exact Hw.
  - intros n. apply slice_bound_nonneg. exact Hw.
  - rewrite (model_implies_processed _ _ _ _ _ _ Hmd Hl Hc).
    rewrite (trade_window_record_cells self md ev pos alpha beta Ht Hb).
    eexists. reflexivity.
Qed.

Lemma trade_window_start_never_negative_witness :
  exists alpha beta,
    calculate_expected_return Sample.bt6 Sample.md6 "X" 3 = Ok (Some (alpha, beta)) /\
    0 <= win_start Sample.bt6 3.
Proof.
  eexists. eexists. split; [vm_compute; reflexivity|].
  refine (proj1 (proj2 (trade_window_start_never_negative
            Sample.bt6 Sample.md6 Sample.ev_mid 3 _ _ _ _ eq_refl eq_refl _))).
  - simpl. lia.
  - simpl. lia.
  - vm_compute. reflexivity.
Defined.

(* ================================================================== *)
(** ** Order and accumulation of the records *)

(** C4 (as stated) fails on an object that has run before: one
    processable event, two records returned. *)
Lemma second_run_returns_more_than_M :
  let self1 := fst (run_event_study Sample.bt6 [Sample.ev_mid]) in
  length (filter (processable self1) [Sample.ev_mid]) = 1%nat /\
  exists rs,
    snd (run_event_study self1 [Sample.ev_mid]) = Ok rs /\ length rs = 2%nat.
Proof.
  split; [vm_compute; reflexivity|].
  eexists. split; [vm_compute; reflexivity | reflexivity].
Qed.

(** C4 (amended).  When no event of the input raises, [run_event_study]
    returns the records already held in [self.results] followed by
    exactly one record per processable event, in the order of the
    events; on an object whose [results] is empty these [M] records are
    the whole output. *)
Theorem run_event_study_appends_in_order
    (self : Backtester) (evs : list Event) :
  none_raises self evs = true ->
  exists new,
    snd (run_event_study self evs) = Ok (results self ++ new) /\
    length new = length (filter (processable self) evs) /\
    Forall2 (fun ev r => process_event self ev = Processed r)
            (filter (processable self) evs) new /\
    (results self = [] -> snd (run_event_study self evs) = Ok new).
Proof.
  intros H. exists (emitted self evs).
  rewrite (run_event_study_none_raises self evs H). simpl.
  pose proof (emitted_filter self evs) as HF.
  repeat split.
  - symmetry. exact (Forall2_length HF).
  - exact HF.
  - intros ->. reflexivity.
Qed.

Lemma run_event_study_appends_in_order_witness :
  exists new,
    snd (run_event_study Sample.bt6
           [Sample.ev_unknown_ticker; Sample.ev_mid; Sample.ev_early;
            Sample.ev_unknown_date; Sample.ev_last])
    = Ok (results Sample.bt6 ++ new) /\
    length new = 2%nat.
Proof.
  destruct (run_event_study_appends_in_order Sample.bt6
              [Sample.ev_unknown_ticker; Sample.ev_mid; Sample.ev_early;
               Sample.ev_unknown_date; Sample.ev_last] eq_refl)
    as (new & Hrun & Hlen & _).
  exists new. split; [exact Hrun | exact Hlen].
Defined.

(** C5 (as stated) fails: after one call that processed an event, a call
    on no events at all returns that earlier record. *)
Lemma earlier_records_reappear :
  let self1 := fst (run_event_study Sample.bt6 [Sample.ev_mid]) in
  exists r,
    snd (run_event_study Sample.bt6 [Sample.ev_mid]) = Ok [r] /\
    snd (run_event_study self1 []) = Ok [r].
Proof.
  eexists. split; vm_compute; reflexivity.
Qed.

(** C5 (amended).  The calls on one object share [self.results]: a call
    appends one record per event it processes and returns the whole
    list, so the output of a later call starts with the output of the
    earlier call, followed by the records of the later call's own
    events. *)
Theorem run_event_study_accumulates
    (self : Backtester) (evs1 evs2 : list Event) :
  none_raises self evs1 = true ->
  none_raises self evs2 = true ->
  let out1 := results self ++ emitted self evs1 in
  let self1 := fst (run_event_study self evs1) in
  snd (run_event_study self evs1) = Ok out1 /\
  results self1 = out1 /\
  snd (run_event_study self1 evs2) = Ok (out1 ++ emitted self evs2).
Proof.
  intros H1 H2 out1 self1. subst self1 out1.
  rewrite (run_event_study_none_raises self evs1 H1). simpl.
  repeat split.
  rewrite run_event_study_none_raises by exact H2.
  reflexivity.
Qed.

Lemma run_event_study_accumulates_witness :
  let self1 := fst (run_event_study Sample.bt6 [Sample.ev_mid]) in
  snd (run_event_study self1 [Sample.ev_last])
  = Ok ((results Sample.bt6 ++ emitted Sample.bt6 [Sample.ev_mid])
        ++ emitted Sample.bt6 [Sample.ev_last]).
Proof.
  exact (proj2 (proj2 (run_event_study_accumulates Sample.bt6
                         [Sample.ev_mid] [Sample.ev_last] eq_refl eq_refl))).
Defined.

(* ================================================================== *)
(** ** The estimation window *)

Lemma estimation_rows_bounds self md idx i :
  0 <= estimation_window self -> 0 <= est_start self idx ->
  In i (estimation_rows self md idx) ->
  est_start self idx <= Z.of_nat i < est_end self idx /\ (i < nrows md)%nat.
Proof.
  intros Hest Hs. apply slice_positions_bounds; [exact Hs|].
  unfold est_start, est_end in *. lia.
Qed.

Lemma est_end_le_win_start self idx :
  est_end self idx <= win_start self idx.
Proof. unfold est_end, win_start. lia. Qed.

(** For an event of the run the estimation window is never cut: its
    position is a row of the table, so [est_end] is at most the number
    of rows. *)
Lemma estimation_rows_of_event self (md : DataFrame Q) d pos :
  0 <= estimation_window self ->
  get_loc (index md) d = LocInt pos ->
  0 <= est_start self pos ->
  estimation_rows self md pos
  = seq (Z.to_nat (est_start self pos)) (Z.to_nat (estimation_window self)).
Proof.
  intros Hest Hl Hs. apply get_loc_range in Hl.
  unfold estimation_rows.
  rewrite slice_positions_inside
    by (unfold nrows, est_start, est_end in *; lia).
  f_equal. unfold est_start, est_end. lia.
Qed.

(** C1 (as stated) fails when the estimation length is negative: with
    [estimation_window = -6] and [event_window = (2, 3)], the event at
    position 1 of an 8-day table has [est_start = 5 >= 0] and
    [est_end = -1]; [iloc[5:-1]] selects rows 5 and 6, which lie after
    the trade window (rows 3 and 4), and changing the return of row 5
    changes the fitted slope. *)
Lemma estimation_reads_rows_after_trade_window :
  est_start Sample.bt_neg 1 = 5 /\
  est_end Sample.bt_neg 1 = -1 /\
  win_start Sample.bt_neg 1 = 3 /\
  estimation_rows Sample.bt_neg Sample.md8 1 = [5; 6]%nat /\
  agree_before 3 Sample.md8 Sample.md8' /\
  exists a b a' b',
    calculate_expected_return Sample.bt_neg Sample.md8 "X" 1 = Ok (Some (a, b)) /\
    calculate_expected_return Sample.bt_neg Sample.md8' "X" 1 = Ok (Some (a', b')) /\
    ~ (b == b')%Q.
Proof.
  repeat (split; [reflexivity|]).
  split.
  - repeat split. intros c i Hi.
    unfold Sample.md8, Sample.md8', Sample.frame_of, cell. simpl.
    destruct (String.eqb c "X"); [|reflexivity].
    destruct i as [|[|[|i]]]; [reflexivity .. | lia].
  - do 4 eexists.
    split; [vm_compute; reflexivity|].
    split; [vm_compute; reflexivity|].
    vm_compute. discriminate.
Qed.

(** C1 (amended).  With [estimation_window >= 0], whenever
    [calculate_expected_return] returns a model, the regression is
    fitted on the rows of [est_start, est_end) with
    [est_end = event_idx - |lead_days|] and
    [est_start = est_end - estimation_window]; every such row is
    strictly before [event_idx - |lead_days|] and strictly before the
    start [event_idx + lead_days] of the trade window, and the model is
    unchanged when the returns at the rows from [event_idx + lead_days]
    on are replaced by others. *)
Theorem estimation_window_precedes_trade_window
    (self : Backtester) (md : DataFrame Q) (tk : string) (idx : Z)
    (alpha beta : Q) :
  0 <= estimation_window self ->
  calculate_expected_return self md tk idx = Ok (Some (alpha, beta)) ->
  est_end self idx = idx - Z.abs (fst (event_window self)) /\
  est_start self idx = est_end self idx - estimation_window self /\
  LinearRegression_fit
    (map (cell md (benchmark_ticker self)) (estimation_rows self md idx))
    (map (cell md tk) (estimation_rows self md idx)) = Ok (alpha, beta) /\
  (est_end self idx <= Z.of_nat (nrows md) ->
   estimation_rows self md idx
   = seq (Z.to_nat (est_start self idx)) (Z.to_nat (estimation_window self))) /\
  (forall i, In i (estimation_rows self md idx) ->
     est_start self idx <= Z.of_nat i < est_end self idx /\
     Z.of_nat i < idx - Z.abs (fst (event_window self)) /\
     Z.of_nat i < win_start self idx) /\
  (forall md', agree_before (win_start self idx) md md' ->
     calculate_expected_return self md' tk idx = Ok (Some (alpha, beta))).
Proof.
  intros Hest Hc.
  destruct (calculate_expected_return_Some _ _ _ _ _ _ Hc) as (Hs & Ht & Hb & Hfit).
  pose proof (est_end_le_win_start self idx) as Hew.
  split; [reflexivity|].
  split; [unfold est_start, est_end; lia|].
  split; [exact Hfit|].
  split; [|split].
  - intros Hn. unfold estimation_rows.
    rewrite slice_positions_inside by (unfold est_start, est_end in *; lia).
    f_equal. unfold est_start, est_end. lia.
  - intros i Hi.
    destruct (estimation_rows_bounds self md idx i Hest Hs Hi) as [Hr _].
    unfold est_end in *. lia.
  - intros md' (Hcols & Hidx & Hcell).
    unfold calculate_expected_return.
    destruct (Z.ltb_spec (est_start self idx) 0) as [|_]; [lia|].
    assert (Hhas : forall c, has_column md' c = has_column md c)
      by (intros c; unfold has_column; rewrite Hcols; reflexivity).
    rewrite !getitem_has by (rewrite Hhas; assumption).
    rewrite !iloc_column.
    assert (Hn : nrows md' = nrows md) by (unfold nrows; rewrite Hidx; reflexivity).
    rewrite Hn. fold (estimation_rows self md idx).
    assert (Hext : forall c,
               map (cell md' c) (estimation_rows self md idx)
               = map (cell md c) (estimation_rows self md idx)).
    { intros c. apply map_ext_in. intros i Hi. apply Hcell.
      destruct (estimation_rows_bounds self md idx i Hest Hs Hi) as [Hr _]. lia. }
    rewrite !Hext. unfold estimation_rows in Hfit |- *.
    rewrite Hfit. reflexivity.
Qed.

Lemma estimation_window_precedes_trade_window_witness :
  exists alpha beta,
    calculate_expected_return Sample.bt6 Sample.md6 "X" 5 = Ok (Some (alpha, beta)) /\
    estimation_rows Sample.bt6 Sample.md6 5 = [2; 3]%nat /\
    forall i, In i (estimation_rows Sample.bt6 Sample.md6 5) ->
              Z.of_nat i < win_start Sample.bt6 5.
Proof.
  eexists. eexists. split; [vm_compute; reflexivity|].
  split; [reflexivity|].
  intros i Hi.
  refine (proj2 (proj2 (proj1 (proj2 (proj2 (proj2 (proj2
            (estimation_window_precedes_trade_window
               Sample.bt6 Sample.md6 "X" 5 _ _ _ _))))) i Hi))).
  - simpl. lia.
  - vm_compute. reflexivity.
Defined.

(* ================================================================== *)
(** ** The trade window *)

Lemma trade_window_inside self (md : DataFrame Q) pos :
  0 <= win_start self pos ->
  0 <= win_end self pos < Z.of_nat (nrows md) ->
  slice_positions (nrows md) (win_start self pos) (win_end self pos + 1)
  = trade_window self pos.
Proof.
  intros Hs He. rewrite slice_positions_inside by lia.
  unfold trade_window. do 2 f_equal. lia.
Qed.

(** C2 (as stated) fails for an event near the end of the series: the
    event on the last of 6 days with [event_window = (-1, 1)] has the
    index range [4 .. 6], whose last position is not a day of the
    series; the record is emitted all the same, and its realized return
    is the sum over the two days 4 and 5 only. *)
Lemma trade_window_cut_at_series_end :
  get_loc (index Sample.md6) (event_date Sample.ev_last) = LocInt 5 /\
  trade_window Sample.bt6 5 = [4; 5; 6]%nat /\
  nrows Sample.md6 = 6%nat /\
  ~ Forall (fun i => (i < nrows Sample.md6)%nat) (trade_window Sample.bt6 5) /\
  (exists col,
      getitem Sample.md6 "X" = Ok col /\
      iloc col (win_start Sample.bt6 5) (win_end Sample.bt6 5 + 1)
      = [3 # 100; 4 # 100]%Q) /\
  exists r,
    process_event Sample.bt6 Sample.ev_last = Processed r /\
    Real_Return r
    = Qsum (map (realized_return Sample.md6 Sample.ev_last) [4; 5]%nat).
Proof.
  repeat (split; [reflexivity|]).
  split; [|split].
  - intros H. rewrite Forall_forall in H.
    specialize (H 6%nat). simpl in H.
    assert (6 < 6)%nat by (apply H; auto). lia.
  - eexists. split; reflexivity.
  - eexists. split; reflexivity.
Qed.

(** C2 (amended).  For every processed event whose trade-window bounds
    [event_idx + lead_days] and [event_idx + lag_days] are both
    positions of the stored series, the trade window is the inclusive
    range between them; for every day in it the expected return is
    [alpha + beta * benchmark_return] and the abnormal return is the
    realized return minus the expected one; the record's CAR is the sum
    of the abnormal returns over the window, its realized return the sum
    of the security's returns over the window, and ticker, event date
    and quality score are those of the event. *)
Theorem record_over_inclusive_window
    (self : Backtester) (md : DataFrame Q) (ev : Event) (pos : Z)
    (r : ResultRecord) :
  market_data self = Some md ->
  get_loc (index md) (event_date ev) = LocInt pos ->
  process_event self ev = Processed r ->
  0 <= win_start self pos ->
  0 <= win_end self pos < Z.of_nat (nrows md) ->
  exists alpha beta,
    calculate_expected_return self md (ticker ev) pos = Ok (Some (alpha, beta)) /\
    (forall i, In i (trade_window self pos) <->
               win_start self pos <= Z.of_nat i <= win_end self pos) /\
    (forall i,
       expected_return self md alpha beta i
       = (alpha + beta * cell md (benchmark_ticker self) i)%Q /\
       abnormal_return self md ev alpha beta i
       = (cell md (ticker ev) i - expected_return self md alpha beta i)%Q) /\
    CAR r = Qsum (map (abnormal_return self md ev alpha beta) (trade_window self pos)) /\
    Real_Return r = Qsum (map (realized_return md ev) (trade_window self pos)) /\
    Ticker r = ticker ev /\
    Event_Date r = event_date ev /\
    Quality_Score r = quality_score ev.
Proof.
  intros Hmd Hl Hp Hs He.
  destruct (process_event_Processed _ _ _ Hp)
    as (md0 & pos0 & alpha & beta & Hmd0 & Ht & Hl0 & Hc & Hrec).
  rewrite Hmd in Hmd0. inversion Hmd0; subst md0.
  rewrite Hl in Hl0. inversion Hl0; subst pos0.
  destruct (calculate_expected_return_Some _ _ _ _ _ _ Hc) as (_ & _ & Hb & _).
  rewrite (trade_window_record_cells self md ev pos alpha beta Ht Hb) in Hrec.
  rewrite (trade_window_inside self md pos Hs He) in Hrec.
  inversion Hrec; subst r; simpl.
  exists alpha, beta.
  split; [exact Hc|].
  split; [intros i; unfold trade_window; rewrite in_seq; lia|].
  split; [intros i; split; reflexivity|].
  repeat split.
Qed.

Lemma record_over_inclusive_window_witness :
  exists r alpha beta,
    process_event Sample.bt6 Sample.ev_mid = Processed r /\
    trade_window Sample.bt6 3 = [2; 3; 4]%nat /\
    CAR r = Qsum (map (abnormal_return Sample.bt6 Sample.md6 Sample.ev_mid alpha beta)
                      (trade_window Sample.bt6 3)).
Proof.
  destruct (process_event Sample.bt6 Sample.ev_mid) as [|r|e] eqn:Hp;
    [discriminate Hp | | discriminate Hp].
  destruct (record_over_inclusive_window
              Sample.bt6 Sample.md6 Sample.ev_mid 3 r eq_refl eq_refl Hp
              ltac:(simpl; lia) ltac:(simpl; lia))
    as (alpha & beta & _ & _ & _ & Hcar & _).
  exists r, alpha, beta.
  split; [reflexivity|]. split; [reflexivity | exact Hcar].
Defined.

(* ================================================================== *)
(** ** Windows that run past the end of the series *)

Lemma getitem_raises {A} (df : DataFrame A) c e :
  getitem df c = Raise e -> e = KeyError.
Proof.
  unfold getitem. destruct (has_column df c); [discriminate|].
  intros H; inversion H; reflexivity.
Qed.

Lemma LinearRegression_fit_raises X y e :
  LinearRegression_fit X y = Raise e -> e = ValueError.
Proof.
  destruct X; simpl; [|discriminate]. intros H; inversion H; reflexivity.
Qed.

Lemma calculate_expected_return_raises self md tk idx e :
  calculate_expected_return self md tk idx = Raise e ->
  e = KeyError \/ e = ValueError.
Proof.
  unfold calculate_expected_return.
  destruct (est_start self idx <? 0); [discriminate|].
  destruct (getitem md tk) as [ycol|e1] eqn:Hy.
  - destruct (getitem md (benchmark_ticker self)) as [xcol|e2] eqn:Hx.
    + destruct (LinearRegression_fit _ _) as [[a b]|e3] eqn:Hf; [discriminate|].
      intros H; inv H. right.
      exact (LinearRegression_fit_raises _ _ _ Hf).
    + intros H; inv H. left. exact (getitem_raises _ _ _ Hx).
  - intros H; inv H. left. exact (getitem_raises _ _ _ Hy).
Qed.

Lemma trade_window_record_raises self md ev pos alpha beta e :
  trade_window_record self md ev pos alpha beta = Raised e -> e = KeyError.
Proof.
  unfold trade_window_record.
  destruct (getitem md (ticker ev)) as [col|e1] eqn:Hy.
  - destruct (getitem md (benchmark_ticker self)) as [bcol|e2] eqn:Hx; [discriminate|].
    intros H; inv H. exact (getitem_raises _ _ _ Hx).
  - intros H; inv H. exact (getitem_raises _ _ _ Hy).
Qed.

(** The exceptions one iteration can raise. *)
Lemma process_event_raises self ev e :
  process_event self ev = Raised e ->
  e = AttributeError \/ e = TypeError \/ e = KeyError \/ e = ValueError.
Proof.
  unfold process_event. intros H.
  destruct (market_data self) as [md|]; [|inversion H; auto].
  destruct (negb (has_column md (ticker ev))); [discriminate|].
  destruct (get_loc (index md) (event_date ev)) as [pos| | |];
    [| discriminate | inversion H; auto | inversion H; auto].
  destruct (calculate_expected_return self md (ticker ev) pos)
    as [[[alpha beta]|]|e1] eqn:Hc; [| discriminate |].
  - apply trade_window_record_raises in H. auto.
  - inv H.
    destruct (calculate_expected_return_raises _ _ _ _ _ Hc); auto.
Qed.

Lemma iterrows_raises self evs acc e :
  snd (iterrows self evs acc) = Some e ->
  exists ev, In ev evs /\ process_event self ev = Raised e.
Proof.
  revert acc. induction evs as [|ev evs IH]; intros acc; simpl; [discriminate|].
  destruct (process_event self ev) as [|r|e1] eqn:Hp.
  - intros H. destruct (IH _ H) as (ev' & Hin & Hr). eauto.
  - intros H. destruct (IH _ H) as (ev' & Hin & Hr). eauto.
  - simpl. intros H; inv H. eauto.
Qed.

Lemma run_event_study_raises self evs e :
  snd (run_event_study self evs) = Raise e ->
  exists ev, In ev evs /\ process_event self ev = Raised e.
Proof.
  unfold run_event_study.
  destruct (iterrows self evs (results self)) as [rs [e1|]] eqn:Hit; simpl;
    [|discriminate].
  intros H; inv H.
  apply (iterrows_raises self evs (results self)). rewrite Hit. reflexivity.
Qed.

(** C6 (as stated) fails: the event on the last of 6 days has
    [win_end = 6], beyond the series; no error is raised and the run
    returns a record for it. *)
Lemma out_of_range_window_emits_record :
  get_loc (index Sample.md6) (event_date Sample.ev_last) = LocInt 5 /\
  Z.of_nat (nrows Sample.md6) <= win_end Sample.bt6 5 /\
  (exists r, snd (run_event_study Sample.bt6 [Sample.ev_last]) = Ok [r]) /\
  snd (run_event_study Sample.bt6 [Sample.ev_last]) <> Raise OutOfRangeError.
Proof.
  split; [reflexivity|].
  split; [simpl; lia|].
  split; [eexists; vm_compute; reflexivity|].
  vm_compute. discriminate.
Qed.

(** C6 (amended).  Pulling the returns of a trade window never fails:
    neither an iteration nor the run raises [OutOfRangeError].  For an
    event with a model whose trade window starts inside the series and
    ends at or beyond its length, the slice is cut at the last row: the
    event is processed, and its record is computed over the rows from
    [win_start] to the last one. *)
Theorem window_past_series_end_is_truncated
    (self : Backtester) (md : DataFrame Q) (ev : Event) (pos : Z)
    (alpha beta : Q) :
  market_data self = Some md ->
  get_loc (index md) (event_date ev) = LocInt pos ->
  calculate_expected_return self md (ticker ev) pos = Ok (Some (alpha, beta)) ->
  0 <= win_start self pos ->
  Z.of_nat (nrows md) <= win_end self pos ->
  let rows := seq (Z.to_nat (win_start self pos))
                  (nrows md - Z.to_nat (win_start self pos)) in
  process_event self ev
  = Processed
      (mkResult (ticker ev) (event_date ev) (quality_score ev)
         (Qsum (map (abnormal_return self md ev alpha beta) rows))
         (Qsum (map (realized_return md ev) rows))) /\
  (forall i, In i rows <-> win_start self pos <= Z.of_nat i /\ (i < nrows md)%nat) /\
  (forall ev', process_event self ev' <> Raised OutOfRangeError) /\
  (forall evs, snd (run_event_study self evs) <> Raise OutOfRangeError).
Proof.
  intros Hmd Hl Hc Hs He rows.
  destruct (calculate_expected_return_Some _ _ _ _ _ _ Hc) as (_ & Ht & Hb & _).
  assert (Hno : forall ev', process_event self ev' <> Raised OutOfRangeError).
  { intros ev' H. apply process_event_raises in H.
    destruct H as [H | [H | [H | H]]]; discriminate H. }
  split; [|split; [|split]].
  - rewrite (model_implies_processed _ _ _ _ _ _ Hmd Hl Hc).
    rewrite (trade_window_record_cells self md ev pos alpha beta Ht Hb).
    rewrite slice_positions_overrun by lia.
    reflexivity.
  - intros i. unfold rows. rewrite in_seq. lia.
  - exact Hno.
  - intros evs H. apply run_event_study_raises in H as (ev' & _ & Hr).
    exact (Hno ev' Hr).
Qed.

Lemma window_past_series_end_is_truncated_witness :
  exists alpha beta,
    process_event Sample.bt6 Sample.ev_last
    = Processed
        (mkResult "X" 15 "Low"
           (Qsum (map (abnormal_return Sample.bt6 Sample.md6 Sample.ev_last alpha beta)
                      [4; 5]%nat))
           (Qsum (map (realized_return Sample.md6 Sample.ev_last) [4; 5]%nat))).
Proof.
  eexists. eexists.
  refine (proj1 (window_past_series_end_is_truncated
                   Sample.bt6 Sample.md6 Sample.ev_last 5 _ _
                   eq_refl eq_refl _ _ _)).
  - vm_compute. reflexivity.
  - simpl. lia.
  - simpl. lia.
Defined.

(* ================================================================== *)
(** ** Degenerate market models *)

Local Open Scope Q_scope.

Lemma Qsum_abnormal_null (f g : nat -> Q) (alpha beta : Q) (rows : list nat) :
  alpha == 0 -> beta == 0 ->
  Qsum (map (fun i => f i - (alpha + beta * g i)) rows) == Qsum (map f rows).
Proof.
  intros Ha Hb. induction rows as [|i rows IH]; simpl; [reflexivity|].
  rewrite IH, Ha, Hb. ring.
Qed.

Lemma Qsum_abnormal_flat (f g : nat -> Q) (alpha beta : Q) (rows : list nat) :
  (forall i, In i rows -> g i == 0) ->
  Qsum (map (fun i => f i - (alpha + beta * g i)) rows)
  == Qsum (map (fun i => f i - alpha) rows).
Proof.
  induction rows as [|i rows IH]; intros Hg.
  - reflexivity.
  - cbn [map Qsum fold_right].
    fold (Qsum (map (fun i => f i - (alpha + beta * g i)) rows)).
    fold (Qsum (map (fun i => f i - alpha) rows)).
    rewrite IH by (intros j Hj; apply Hg; right; exact Hj).
    rewrite (Hg i) by (left; reflexivity).
    ring.
Qed.

Local Close Scope Q_scope.

(** C8 (as stated) fails for a window that runs past the last row.  The
    event on the last of six days has the window [4 .. 6], three days
    by its bounds, with a zero benchmark on every stored row of it; the
    slice returns rows 4 and 5 only, and the CAR is the sum of the
    realized returns minus twice [alpha], not three times. *)
Lemma zero_benchmark_car_at_series_end :
  exists r alpha beta,
    process_event Sample.bt6 Sample.ev_last = Processed r /\
    calculate_expected_return Sample.bt6 Sample.md6 "X" 5
    = Ok (Some (alpha, beta)) /\
    (forall i, win_start Sample.bt6 5 <= Z.of_nat i <= win_end Sample.bt6 5 ->
               (cell Sample.md6 (benchmark_ticker Sample.bt6) i == 0)%Q) /\
    win_end Sample.bt6 5 - win_start Sample.bt6 5 + 1 = 3 /\
    (CAR r == Real_Return r - alpha * inject_Z 2)%Q /\
    ~ (CAR r == Real_Return r - alpha * inject_Z 3)%Q.
Proof.
  eexists. eexists. eexists.
  split; [vm_compute; reflexivity|].
  split; [vm_compute; reflexivity|].
  split.
  - intros i Hi. change (win_start Sample.bt6 5) with 4 in Hi.
    change (win_end Sample.bt6 5) with 6 in Hi.
    assert (Hcase : (i = 4 \/ i = 5 \/ i = 6)%nat) by lia.
    destruct Hcase as [-> | [-> | ->]]; reflexivity.
  - split; [reflexivity|].
    split; [reflexivity|].
    intros H. vm_compute in H. discriminate H.
Qed.

(** C8 (amended).  A processed event's record is computed over the rows
    that the slice [iloc[win_start : win_end + 1]] returns.  When the
    fitted model has [alpha = 0] and [beta = 0], the abnormal return is
    the realized return on each of these rows, and the CAR equals the
    record's sum of raw returns.  When every benchmark return on these
    rows is zero, the expected return is [alpha] on each of them, and
    the CAR is the sum over them of the realized return minus [alpha].
    The slice returns the [win_end - win_start + 1] rows of the window
    when both bounds are positions of the series, and only the
    [nrows - win_start] rows from [win_start] to the last one when the
    window runs past the end of the series. *)
Theorem car_degenerate_cases
    (self : Backtester) (md : DataFrame Q) (ev : Event) (pos : Z)
    (alpha beta : Q) (r : ResultRecord) :
  market_data self = Some md ->
  get_loc (index md) (event_date ev) = LocInt pos ->
  calculate_expected_return self md (ticker ev) pos = Ok (Some (alpha, beta)) ->
  process_event self ev = Processed r ->
  let rows :=
    slice_positions (nrows md) (win_start self pos) (win_end self pos + 1) in
  Real_Return r = Qsum (map (realized_return md ev) rows) /\
  CAR r = Qsum (map (abnormal_return self md ev alpha beta) rows) /\
  ((alpha == 0)%Q -> (beta == 0)%Q ->
   (forall i, (abnormal_return self md ev alpha beta i
               == realized_return md ev i)%Q) /\
   (CAR r == Real_Return r)%Q) /\
  ((forall i, In i rows -> (cell md (benchmark_ticker self) i == 0)%Q) ->
   (forall i, In i rows -> (expected_return self md alpha beta i == alpha)%Q) /\
   (CAR r == Qsum (map (fun i => realized_return md ev i - alpha) rows))%Q) /\
  (0 <= win_start self pos -> 0 <= win_end self pos < Z.of_nat (nrows md) ->
   rows = trade_window self pos /\
   length rows = Z.to_nat (win_end self pos - win_start self pos + 1)) /\
  (0 <= win_start self pos -> Z.of_nat (nrows md) <= win_end self pos ->
   length rows = (nrows md - Z.to_nat (win_start self pos))%nat).
Proof.
  intros Hmd Hl Hc Hp rows.
  destruct (calculate_expected_return_Some _ _ _ _ _ _ Hc) as (_ & Ht & Hb & _).
  rewrite (model_implies_processed _ _ _ _ _ _ Hmd Hl Hc) in Hp.
  rewrite (trade_window_record_cells self md ev pos alpha beta Ht Hb) in Hp.
  fold rows in Hp. inversion Hp; subst r; simpl.
  split; [reflexivity|].
  split; [reflexivity|].
  split; [|split; [|split]].
  - intros Ha Hbeta. split.
    + intros i. unfold abnormal_return, expected_return.
      rewrite Ha, Hbeta. ring.
    + apply Qsum_abnormal_null; assumption.
  - intros Hzero. split.
    + intros i Hi. unfold expected_return. rewrite (Hzero i Hi). ring.
    + apply Qsum_abnormal_flat. exact Hzero.
  - intros Hs He. unfold rows.
    rewrite (trade_window_inside self md pos Hs He).
    split; [reflexivity|]. unfold trade_window. apply length_seq.
  - intros Hs He. unfold rows.
    rewrite slice_positions_overrun by lia. apply length_seq.
Qed.

Lemma car_degenerate_cases_witness :
  (exists r alpha beta,
      process_event Sample.bt6 Sample.ev_mid = Processed r /\
      calculate_expected_return Sample.bt6 Sample.md6 "X" 3 = Ok (Some (alpha, beta)) /\
      (alpha == 0)%Q /\ (beta == 0)%Q /\
      (CAR r == Real_Return r)%Q) /\
  (exists r alpha beta,
      process_event Sample.bt6 Sample.ev_late = Processed r /\
      calculate_expected_return Sample.bt6 Sample.md6 "X" 4 = Ok (Some (alpha, beta)) /\
      (alpha == 1 # 100)%Q /\
      (CAR r == Qsum (map (fun i => realized_return Sample.md6 Sample.ev_late i - alpha)
                          [3; 4; 5]%nat))%Q).
Proof.
  split.
  - destruct (calculate_expected_return Sample.bt6 Sample.md6 "X" 3)
      as [[[alpha beta]|]|e] eqn:Hc;
      [ | discriminate Hc | discriminate Hc].
    destruct (process_event Sample.bt6 Sample.ev_mid) as [|r|e] eqn:Hp;
      [discriminate Hp | | discriminate Hp].
    destruct (car_degenerate_cases Sample.bt6 Sample.md6 Sample.ev_mid 3
                alpha beta r eq_refl eq_refl Hc Hp)
      as (_ & _ & Hnull & _).
    assert (Hab : (alpha == 0)%Q /\ (beta == 0)%Q).
    { vm_compute in Hc. inversion Hc; subst. split; reflexivity. }
    destruct Hab as [Ha Hb].
    exists r, alpha, beta.
    repeat (split; [first [reflexivity | assumption]|]).
    exact (proj2 (Hnull Ha Hb)).
  - destruct (calculate_expected_return Sample.bt6 Sample.md6 "X" 4)
      as [[[alpha beta]|]|e] eqn:Hc;
      [ | discriminate Hc | discriminate Hc].
    destruct (process_event Sample.bt6 Sample.ev_late) as [|r|e] eqn:Hp;
      [discriminate Hp | | discriminate Hp].
    destruct (car_degenerate_cases Sample.bt6 Sample.md6 Sample.ev_late 4
                alpha beta r eq_refl eq_refl Hc Hp)
      as (_ & _ & _ & Hflat & _).
    assert (Ha : (alpha == 1 # 100)%Q).
    { vm_compute in Hc. inversion Hc; subst. reflexivity. }
    exists r, alpha, beta.
    repeat (split; [first [reflexivity | assumption]|]).
    apply Hflat. intros i Hi.
    simpl in Hi. destruct Hi as [<- | [<- | [<- | []]]]; reflexivity.
Defined.

(* ================================================================== *)
(** ** The stored table *)

Lemma StronglySorted_seq (s n : nat) : StronglySorted lt (seq s n).
Proof.
  revert s. induction n as [|n IH]; intros s; simpl; constructor.
  - apply IH.
  - apply Forall_forall. intros x Hx. apply in_seq in Hx. lia.
Qed.

Lemma StronglySorted_filter {A} (R : A -> A -> Prop) (p : A -> bool) l :
  StronglySorted R l -> StronglySorted R (filter p l).
Proof.
  induction 1 as [|a l Hs IH Hall]; simpl; [constructor|].
  destruct (p a); [|exact IH].
  constructor; [exact IH|].
  rewrite Forall_forall in *. intros x Hx.
  apply filter_In in Hx as [Hx _]. auto.
Qed.

Lemma kept_rows_In df i :
  In i (kept_rows df) <-> (i < nrows df)%nat /\ row_complete df i = true.
Proof. unfold kept_rows. rewrite filter_In, in_seq. intuition lia. Qed.

Lemma row_complete_spec df i :
  row_complete df i = true <->
  forall c, In c (columns df) -> cell df c i <> None.
Proof.
  unfold row_complete. rewrite forallb_forall.
  split; intros H c Hc; specialize (H c Hc).
  - destruct (cell df c i); [discriminate | discriminate H].
  - destruct (cell df c i); [reflexivity | contradiction].
Qed.

Lemma log_returns_Some log_ratio data c i v :
  cell (log_returns log_ratio data) c i = Some v ->
  exists j p q,
    i = S j /\ cell data c i = Some p /\ cell data c j = Some q /\
    log_ratio p q = Some v.
Proof.
  simpl. destruct i as [|j]; [discriminate|].
  destruct (cell data c (S j)) as [p|] eqn:Hp; [|discriminate].
  destruct (cell data c j) as [q|] eqn:Hq; [|discriminate].
  intros H. exists j, p, q. auto.
Qed.

Lemma dropna_index df :
  index (dropna df) = map (fun i => nth i (index df) 0) (kept_rows df).
Proof. reflexivity. Qed.

Lemma dropna_cell df c k :
  cell (dropna df) c k
  = match cell df c (nth k (kept_rows df) O) with
    | Some v => v
    | None => 0%Q
    end.
Proof. reflexivity. Qed.

(** What [dropna] after [log_returns] keeps of a price table [data]:
    [aligned log_ratio data md] relates the table [md] it produces to
    [data]. *)
Lemma dropna_log_returns_aligned
    (log_ratio : Q -> Q -> option Q) (data : DataFrame (option Q)) :
  aligned log_ratio data (dropna (log_returns log_ratio data)).
Proof.
  unfold aligned.
  set (lr := log_returns log_ratio data).
  set (md := dropna lr).
  assert (Hlen : length (kept_rows lr) = nrows md).
  { unfold md, dropna, nrows. simpl. rewrite length_map. reflexivity. }
  split; [reflexivity|].
  split; [exact Hlen|].
  split; [apply StronglySorted_filter, StronglySorted_seq|].
  split; [|split].
  - intros i. rewrite kept_rows_In, row_complete_spec. reflexivity.
  - intros k i Hk.
    assert (Hin : In i (kept_rows lr)) by (eapply nth_error_In; exact Hk).
    apply kept_rows_In in Hin as [Hi Hrow].
    split.
    + unfold md. rewrite dropna_index, nth_error_map, Hk. simpl.
      symmetry. apply nth_error_nth'. exact Hi.
    + intros c Hc.
      assert (Hcell : cell lr c i = Some (cell md c k)).
      { unfold md. rewrite dropna_cell, (nth_error_nth _ _ O Hk).
        rewrite row_complete_spec in Hrow. specialize (Hrow c Hc).
        destruct (cell lr c i); [reflexivity | contradiction]. }
      split; [exact Hcell|].
      exact (log_returns_Some _ _ _ _ _ Hcell).
  - intros c col start stop Hg.
    apply getitem_Ok in Hg as [_ ->].
    split; [rewrite length_map, length_seq; reflexivity|].
    split; [apply iloc_column|].
    intros k Hk. apply slice_positions_lt in Hk.
    rewrite <- Hlen in Hk.
    exists (nth k (kept_rows lr) O). apply nth_error_nth'. exact Hk.
Qed.


(** C7.  In the table stored by [fetch_market_data] all symbols share
    one index.  The stored rows are, in order, exactly the rows of the
    downloaded table in which no symbol's return is missing; a row with
    a missing return for any symbol is dropped.  The date at a stored
    position is the date of its raw row, at which every symbol has a
    price (and one on the previous row), and the stored value is that
    symbol's return for that date.  A slice over any range of any
    symbol returns values at stored positions only. *)
Theorem stored_rows_are_complete_raw_rows
    (yf_download : list string -> Timestamp -> Timestamp
                   -> result (DataFrame (option Q)))
    (log_ratio : Q -> Q -> option Q)
    (self self' : Backtester) (tickers : list string)
    (start_date end_date : Timestamp) :
  fetch_market_data yf_download log_ratio self tickers start_date end_date
  = Ok self' ->
  exists data md,
    yf_download (tickers ++ [benchmark_ticker self]) start_date end_date = Ok data /\
    market_data self' = Some md /\
    aligned log_ratio data md.
Proof.
  unfold fetch_market_data.
  destruct (yf_download _ _ _) as [data|e]; [|discriminate].
  intros H. inversion H; subst self'. clear H.
  exists data, (dropna (log_returns log_ratio data)).
  split; [reflexivity|]. split; [reflexivity|].
  apply dropna_log_returns_aligned.
Qed.

Lemma stored_rows_are_complete_raw_rows_witness :
  exists md,
    aligned Sample.simple_log_ratio Sample.prices md /\
    index md = [2; 5] /\
    getitem md "B" = Ok [cell md "B" 0%nat; cell md "B" 1%nat].
Proof.
  destruct (stored_rows_are_complete_raw_rows
              Sample.download_prices Sample.simple_log_ratio
              Sample.bt_fresh _ ["X"] 1 6 eq_refl)
    as (data & md & Hd & Hmd & Hal).
  inversion Hd; subst data. inversion Hmd; subst md.
  eexists. split; [exact Hal|]. split; reflexivity.
Defined.

(** C9 (as stated) fails: a download with a single day yields no return
    at all; [fetch_market_data] succeeds and stores the empty table. *)
Lemma empty_series_is_accepted :
  let res := fetch_market_data Sample.download_one_day Sample.simple_log_ratio
                               Sample.bt_fresh ["X"] 1 2 in
  (exists self' md,
      res = Ok self' /\ market_data self' = Some md /\ index md = []) /\
  res <> Raise InsufficientDataError.
Proof.
  split.
  - do 2 eexists. split; [reflexivity|]. split; reflexivity.
  - discriminate.
Qed.

(** C9 (amended).  [fetch_market_data] does not inspect the aligned
    series: when the download succeeds and the aligned log-return series
    is empty, the call succeeds and stores the empty table; no
    [InsufficientDataError] is raised. *)
Theorem fetch_market_data_accepts_empty_series
    (yf_download : list string -> Timestamp -> Timestamp
                   -> result (DataFrame (option Q)))
    (log_ratio : Q -> Q -> option Q)
    (self : Backtester) (tickers : list string)
    (start_date end_date : Timestamp) (data : DataFrame (option Q)) :
  yf_download (tickers ++ [benchmark_ticker self]) start_date end_date = Ok data ->
  nrows (dropna (log_returns log_ratio data)) = 0%nat ->
  exists self',
    fetch_market_data yf_download log_ratio self tickers start_date end_date
    = Ok self' /\
    (exists md, market_data self' = Some md /\ index md = []) /\
    fetch_market_data yf_download log_ratio self tickers start_date end_date
    <> Raise InsufficientDataError.
Proof.
  intros Hd Hempty. unfold fetch_market_data. rewrite Hd.
  remember (dropna (log_returns log_ratio data)) as md eqn:Emd.
  clear Emd.
  assert (Hidx : index md = [])
    by (apply length_zero_iff_nil; exact Hempty).
  exists (set_market_data self md).
  split; [reflexivity|].
  split; [exists md; split; [reflexivity | exact Hidx]|].
  discriminate.
Qed.

Lemma fetch_market_data_accepts_empty_series_witness :
  exists self',
    fetch_market_data Sample.download_one_day Sample.simple_log_ratio
                      Sample.bt_fresh ["X"] 1 2 = Ok self' /\
    exists md, market_data self' = Some md /\ index md = [].
Proof.
  destruct (fetch_market_data_accepts_empty_series
              Sample.download_one_day Sample.simple_log_ratio
              Sample.bt_fresh ["X"] 1 2 Sample.one_day eq_refl eq_refl)
    as (self' & Hf & Hmd & _).
  exists self'. split; [exact Hf | exact Hmd].
Defined.

(* ================================================================== *)
(** * Further properties of the backtester *)

(** ** Exceptions that leave the loop *)

Lemma has_column_true {A} (df : DataFrame A) (c : string) :
  In c (columns df) -> has_column df c = true.
Proof.
  intros H. unfold has_column. apply existsb_exists.
  exists c. split; [exact H | apply String.eqb_refl].
Qed.

Lemma iterrows_app self evs1 evs2 acc :
  none_raises self evs1 = true ->
  iterrows self (evs1 ++ evs2) acc
  = iterrows self evs2 (acc ++ emitted self evs1).
Proof.
  revert acc. induction evs1 as [|ev evs1 IH]; intros acc H; simpl.
  - rewrite app_nil_r. reflexivity.
  - simpl in H. apply andb_prop in H as [Hev Hrest].
    unfold raises in Hev. unfold record_of.
    destruct (process_event self ev) as [|r|e]; simpl.
    + apply IH, Hrest.
    + rewrite IH by exact Hrest. rewrite <- app_assoc. reflexivity.
    + discriminate.
Qed.

Lemma iterrows_set_results self rs evs acc :
  iterrows (set_results self rs) evs acc = iterrows self evs acc.
Proof.
  revert acc. induction evs as [|ev evs IH]; intros acc; simpl; [reflexivity|].
  rewrite process_event_set_results.
  destruct (process_event self ev); auto.
Qed.

(** X2.  The [try/except KeyError] of the loop covers the date lookup
    only.  When the benchmark label is not a column of the market data,
    an event with a known ticker, a date in the index and enough
    history makes [calculate_expected_return] raise [KeyError], and the
    run is aborted with it. *)
Theorem missing_benchmark_aborts_run
    (self : Backtester) (md : DataFrame Q) (ev : Event) (pos : Z)
    (before after : list Event) :
  market_data self = Some md ->
  In (ticker ev) (columns md) ->
  ~ In (benchmark_ticker self) (columns md) ->
  get_loc (index md) (event_date ev) = LocInt pos ->
  0 <= est_start self pos ->
  none_raises self before = true ->
  calculate_expected_return self md (ticker ev) pos = Raise KeyError /\
  process_event self ev = Raised KeyError /\
  snd (run_event_study self (before ++ ev :: after)) = Raise KeyError.
Proof.
  intros Hmd Ht Hb Hl Hs Hbefore.
  assert (Hc : calculate_expected_return self md (ticker ev) pos = Raise KeyError).
  { unfold calculate_expected_return.
    destruct (Z.ltb_spec (est_start self pos) 0) as [|_]; [lia|].
    rewrite (getitem_has _ _ (has_column_true _ _ Ht)).
    unfold getitem at 1. rewrite (has_column_false _ _ Hb). reflexivity. }
  assert (Hp : process_event self ev = Raised KeyError).
  { unfold process_event.
    rewrite Hmd, (has_column_true _ _ Ht), Hl, Hc. reflexivity. }
  repeat split; try assumption.
  unfold run_event_study.
  rewrite (iterrows_app self before (ev :: after) _ Hbefore).
  simpl. rewrite Hp. reflexivity.
Qed.

Lemma missing_benchmark_aborts_run_witness :
  snd (run_event_study Edge.bt_nobench
         [Sample.ev_early; Sample.ev_mid; Sample.ev_last])
  = Raise KeyError.
Proof.
  refine (proj2 (proj2 (missing_benchmark_aborts_run
            Edge.bt_nobench Sample.md6 Sample.ev_mid 3
            [Sample.ev_early] [Sample.ev_last] eq_refl _ _ eq_refl _ eq_refl))).
  - simpl. auto.
  - simpl. intros [H | [H | []]]; discriminate H.
  - vm_compute. discriminate.
Defined.

(** X3.  With [estimation_window = 0] the estimation slice is empty:
    every event with a known ticker whose position is at least
    [|lead_days|] makes the regression fail with [ValueError], which
    leaves the loop; no such event is skipped or processed. *)
Theorem zero_estimation_window_raises
    (self : Backtester) (md : DataFrame Q) (ev : Event) (pos : Z) :
  estimation_window self = 0 ->
  market_data self = Some md ->
  In (ticker ev) (columns md) ->
  In (benchmark_ticker self) (columns md) ->
  get_loc (index md) (event_date ev) = LocInt pos ->
  Z.abs (fst (event_window self)) <= pos ->
  estimation_rows self md pos = [] /\
  process_event self ev = Raised ValueError.
Proof.
  intros Hz Hmd Ht Hb Hl Hpos.
  assert (Hs : 0 <= est_start self pos) by (unfold est_start; lia).
  assert (Hrows : estimation_rows self md pos = []).
  { unfold estimation_rows.
    assert (He : est_end self pos = est_start self pos)
      by (unfold est_start, est_end; lia).
    rewrite He. unfold slice_positions.
    rewrite Z.sub_diag. reflexivity. }
  split; [exact Hrows|].
  unfold process_event.
  rewrite Hmd, (has_column_true _ _ Ht), Hl. simpl.
  unfold calculate_expected_return.
  destruct (Z.ltb_spec (est_start self pos) 0) as [|_]; [lia|].
  rewrite (getitem_has _ _ (has_column_true _ _ Ht)).
  rewrite (getitem_has _ _ (has_column_true _ _ Hb)).
  rewrite !iloc_column. fold (estimation_rows self md pos).
  rewrite Hrows. reflexivity.
Qed.

Lemma zero_estimation_window_raises_witness :
  process_event Edge.bt_zero Sample.ev_mid = Raised ValueError.
Proof.
  refine (proj2 (zero_estimation_window_raises
            Edge.bt_zero Sample.md6 Sample.ev_mid 3
            eq_refl eq_refl _ _ eq_refl _)).
  - simpl. auto.
  - simpl. auto.
  - vm_compute. discriminate.
Defined.

(** X4.  When an event raises, the run stops there: the records of the
    events before it have already been appended to [self.results] and
    stay there, the events after it are not visited, and a later run
    that raises nothing returns those earlier records followed by its
    own. *)
Theorem raise_keeps_earlier_records
    (self : Backtester) (before after later : list Event) (ev : Event)
    (e : exn) :
  none_raises self before = true ->
  process_event self ev = Raised e ->
  none_raises self later = true ->
  let self1 := fst (run_event_study self (before ++ ev :: after)) in
  snd (run_event_study self (before ++ ev :: after)) = Raise e /\
  results self1 = results self ++ emitted self before /\
  snd (run_event_study self1 later)
  = Ok ((results self ++ emitted self before) ++ emitted self later).
Proof.
  intros Hbefore Hev Hlater self1. subst self1.
  assert (Hrun : run_event_study self (before ++ ev :: after)
                 = (set_results self (results self ++ emitted self before),
                    Raise e)).
  { unfold run_event_study.
    rewrite (iterrows_app self before (ev :: after) _ Hbefore).
    simpl. rewrite Hev. reflexivity. }
  rewrite Hrun. simpl.
  repeat split.
  rewrite run_event_study_none_raises by exact Hlater.
  reflexivity.
Qed.

Lemma raise_keeps_earlier_records_witness :
  let self1 :=
    fst (run_event_study Edge.bt_dup
           [Sample.ev_mid; Sample.ev_late; Sample.ev_early]) in
  exists r,
    process_event Edge.bt_dup Sample.ev_mid = Processed r /\
    snd (run_event_study Edge.bt_dup
           [Sample.ev_mid; Sample.ev_late; Sample.ev_early])
    = Raise TypeError /\
    results self1 = [r] /\
    snd (run_event_study self1 [Sample.ev_mid]) = Ok [r; r].
Proof.
  pose proof (raise_keeps_earlier_records Edge.bt_dup
                [Sample.ev_mid] [Sample.ev_early] [Sample.ev_mid]
                Sample.ev_late TypeError eq_refl eq_refl eq_refl)
    as (H1 & H2 & H3).
  eexists. split; [vm_compute; reflexivity|].
  split; [exact H1|]. split; [exact H2 | exact H3].
Defined.

(** X5.  Splitting the events into two batches and running them one
    after the other on the same object gives the same object and the
    same output as one run over all of them, provided no event of the
    first batch raises. *)
Theorem run_in_batches (self : Backtester) (evs1 evs2 : list Event) :
  none_raises self evs1 = true ->
  run_event_study (fst (run_event_study self evs1)) evs2
  = run_event_study self (evs1 ++ evs2).
Proof.
  intros H.
  rewrite (run_event_study_none_raises self evs1 H). simpl.
  unfold run_event_study.
  rewrite (iterrows_app self evs1 evs2 _ H), iterrows_set_results. simpl.
  destruct (iterrows self evs2 (results self ++ emitted self evs1)) as [rs err].
  reflexivity.
Qed.

Lemma run_in_batches_witness :
  run_event_study
    (fst (run_event_study Sample.bt6 [Sample.ev_mid; Sample.ev_early]))
    [Sample.ev_last]
  = run_event_study Sample.bt6 [Sample.ev_mid; Sample.ev_early; Sample.ev_last].
Proof.
  exact (run_in_batches Sample.bt6 [Sample.ev_mid; Sample.ev_early]
           [Sample.ev_last] eq_refl).
Defined.

(** ** Runs that cannot raise *)

Lemma positions_of_NoDup (d : Timestamp) (l : list Timestamp) (i : Z) :
  NoDup l -> (length (positions_of d l i) <= 1)%nat.
Proof.
  intros Hnd. revert i. induction Hnd as [|x l Hx Hnd IH]; intros i; simpl; [lia|].
  destruct (Z.eqb_spec x d) as [->|_]; [|apply IH].
  rewrite positions_of_absent by exact Hx. simpl. lia.
Qed.

Lemma get_loc_NoDup (idx : list Timestamp) (d : Timestamp) :
  NoDup idx -> get_loc idx d <> LocSlice /\ get_loc idx d <> LocMask.
Proof.
  intros Hnd. unfold get_loc.
  pose proof (positions_of_NoDup d idx 0 Hnd) as Hlen.
  destruct (positions_of d idx 0) as [|a [|b l]];
    [split; discriminate | split; discriminate |].
  simpl in Hlen. lia.
Qed.

Lemma process_event_never_raises self md ev :
  market_data self = Some md ->
  NoDup (index md) ->
  In (benchmark_ticker self) (columns md) ->
  1 <= estimation_window self ->
  raises self ev = false.
Proof.
  intros Hmd Hnd Hb Hest. unfold raises, process_event. rewrite Hmd.
  destruct (has_column md (ticker ev)) eqn:Ht; simpl; [|reflexivity].
  destruct (get_loc (index md) (event_date ev)) as [pos| | |] eqn:Hl;
    [| reflexivity
     | exfalso; exact (proj1 (get_loc_NoDup _ _ Hnd) Hl)
     | exfalso; exact (proj2 (get_loc_NoDup _ _ Hnd) Hl)].
  unfold calculate_expected_return.
  destruct (Z.ltb_spec (est_start self pos) 0) as [|Hs]; [reflexivity|].
  rewrite (getitem_has _ _ Ht), (getitem_has _ _ (has_column_true _ _ Hb)).
  rewrite !iloc_column. fold (estimation_rows self md pos).
  rewrite (estimation_rows_of_event self md _ pos ltac:(lia) Hl Hs).
  destruct (Z.to_nat (estimation_window self)) as [|n] eqn:En; [lia|].
  simpl.
  rewrite (trade_window_record_cells self md ev pos _ _ Ht
             (has_column_true _ _ Hb)).
  reflexivity.
Qed.

Lemma none_raises_on_sound_store self md evs :
  market_data self = Some md ->
  NoDup (index md) ->
  In (benchmark_ticker self) (columns md) ->
  1 <= estimation_window self ->
  none_raises self evs = true.
Proof.
  intros Hmd Hnd Hb Hest. induction evs as [|ev evs IH]; simpl; [reflexivity|].
  rewrite (process_event_never_raises self md ev Hmd Hnd Hb Hest), IH.
  reflexivity.
Qed.

Section RunOverRows.

Variable pd_to_datetime : string -> result Timestamp.

(** X6.  On market data of finite returns with no repeated date and
    with the benchmark column, and with [estimation_window >= 1], the
    only exception that leaves [run_event_study] is the one raised by
    [pd.to_datetime] at line 77.  A run over rows whose dates all parse
    returns the accumulated records followed by the records of these
    rows; a run that meets a row whose date does not parse is aborted
    with the parser's exception at the first such row, with the records
    of the rows before it appended and the rows after it not visited. *)
Theorem run_raises_only_on_unparsable_dates
    (self : Backtester) (md : DataFrame Q)
    (before after : list Raw.Row) (evs : list Event) :
  market_data self = Some md ->
  NoDup (index md) ->
  In (benchmark_ticker self) (columns md) ->
  1 <= estimation_window self ->
  Raw.to_events pd_to_datetime before = Ok evs ->
  Raw.run_event_study pd_to_datetime self before
  = (set_results self (results self ++ emitted self evs),
     Ok (results self ++ emitted self evs)) /\
  forall row e,
    pd_to_datetime (Raw.r_event_date row) = Raise e ->
    Raw.run_event_study pd_to_datetime self (before ++ row :: after)
    = (set_results self (results self ++ emitted self evs), Raise e).
Proof.
  intros Hmd Hnd Hb Hest Hparse.
  pose proof (none_raises_on_sound_store self md evs Hmd Hnd Hb Hest) as Hnr.
  split.
  - rewrite (RawFacts.run_event_study_parsed pd_to_datetime self before evs Hparse).
    apply run_event_study_none_raises. exact Hnr.
  - intros row e Hrow. unfold Raw.run_event_study.
    rewrite (RawFacts.iterrows_reach pd_to_datetime self before (row :: after)
               evs _ Hparse Hnr).
    simpl.
    rewrite (RawFacts.process_row_unparsable pd_to_datetime self row e Hrow).
    reflexivity.
Qed.

End RunOverRows.

Lemma run_raises_only_on_unparsable_dates_witness :
  exists r,
    Raw.run_event_study RawSample.parse Sample.bt6
      [RawSample.row_mid; RawSample.row_early]
    = (set_results Sample.bt6 [r], Ok [r]) /\
    Raw.run_event_study RawSample.parse Sample.bt6
      [RawSample.row_mid; RawSample.row_early;
       RawSample.row_bad_date; RawSample.row_last]
    = (set_results Sample.bt6 [r], Raise ValueError).
Proof.
  assert (Hnd : NoDup (index Sample.md6)).
  { simpl. repeat constructor; simpl; intuition discriminate. }
  assert (Hb : In (benchmark_ticker Sample.bt6) (columns Sample.md6)).
  { simpl. right. left. reflexivity. }
  assert (Hest : 1 <= estimation_window Sample.bt6) by (simpl; lia).
  destruct (run_raises_only_on_unparsable_dates RawSample.parse
              Sample.bt6 Sample.md6
              [RawSample.row_mid; RawSample.row_early] [RawSample.row_last]
              [Sample.ev_mid; Sample.ev_early]
              eq_refl Hnd Hb Hest eq_refl)
    as (Hok & Hraise).
  eexists. split.
  - rewrite Hok. vm_compute. reflexivity.
  - pose proof (Hraise RawSample.row_bad_date ValueError eq_refl) as H.
    cbn [app] in H. rewrite H. vm_compute. reflexivity.
Defined.

(* ================================================================== *)
(** * Further properties of [fetch_market_data] *)

Lemma filter_length_bound {A} (p : A -> bool) (l : list A) :
  (length (filter p l) <= length l)%nat.
Proof.
  induction l as [|x l IH]; simpl; [lia|].
  destruct (p x); simpl; lia.
Qed.

Lemma filter_none {A} (p : A -> bool) (l : list A) :
  (forall x, In x l -> p x = false) -> filter p l = [].
Proof.
  induction l as [|x l IH]; intros H; simpl; [reflexivity|].
  rewrite (H x) by (left; reflexivity).
  apply IH. intros y Hy. apply H. right. exact Hy.
Qed.

Lemma filter_all {A} (p : A -> bool) (l : list A) :
  (forall x, In x l -> p x = true) -> filter p l = l.
Proof.
  induction l as [|x l IH]; intros H; simpl; [reflexivity|].
  rewrite (H x) by (left; reflexivity).
  f_equal. apply IH. intros y Hy. apply H. right. exact Hy.
Qed.

(** Row 0 has no previous day: its returns are missing in every column. *)
Lemma first_row_incomplete log_ratio (data : DataFrame (option Q)) :
  columns data <> [] ->
  row_complete (log_returns log_ratio data) 0 = false.
Proof.
  unfold row_complete. simpl.
  destruct (columns data) as [|c cs]; [contradiction | reflexivity].
Qed.

Lemma kept_rows_skip_first log_ratio (data : DataFrame (option Q)) :
  columns data <> [] ->
  kept_rows (log_returns log_ratio data)
  = filter (row_complete (log_returns log_ratio data))
           (seq 1 (nrows data - 1)).
Proof.
  intros Hc. unfold kept_rows.
  change (nrows (log_returns log_ratio data)) with (nrows data).
  destruct (nrows data) as [|n]; [reflexivity|].
  cbn [seq filter]. rewrite (first_row_incomplete log_ratio data Hc).
  replace (S n - 1)%nat with n by lia. reflexivity.
Qed.

Lemma map_nth_seq {A} (l : list A) (d : A) :
  map (fun i => nth i l d) (seq 0 (length l)) = l.
Proof.
  apply nth_ext with (d := d) (d' := d).
  - rewrite length_map, length_seq. reflexivity.
  - intros n Hn. rewrite length_map, length_seq in Hn.
    rewrite (nth_indep _ d (nth 0 l d))
      by (rewrite length_map, length_seq; exact Hn).
    rewrite (map_nth (fun i => nth i l d)), seq_nth by exact Hn.
    reflexivity.
Qed.

Lemma map_nth_tl {A} (l : list A) (d : A) :
  map (fun i => nth i l d) (seq 1 (length l - 1)) = tl l.
Proof.
  destruct l as [|x l]; [reflexivity|].
  cbn [length tl]. replace (S (length l) - 1)%nat with (length l) by lia.
  rewrite <- seq_shift, map_map. cbn [nth].
  apply map_nth_seq.
Qed.

Lemma positions_of_nth_error (d : Timestamp) (l : list Timestamp) (i : Z) (k : nat) :
  NoDup l -> nth_error l k = Some d ->
  positions_of d l i = [i + Z.of_nat k].
Proof.
  intros Hnd. revert i k.
  induction Hnd as [|x l Hx Hnd IH]; intros i k Hk; [destruct k; discriminate|].
  destruct k as [|k]; simpl in Hk |- *.
  - inv Hk. rewrite Z.eqb_refl, positions_of_absent by exact Hx.
    f_equal. lia.
  - destruct (Z.eqb_spec x d) as [->|_].
    + exfalso. apply Hx. exact (nth_error_In _ _ Hk).
    + rewrite (IH (i + 1) k Hk). f_equal. lia.
Qed.

Lemma get_loc_nth_error (idx : list Timestamp) (d : Timestamp) (k : nat) :
  NoDup idx -> nth_error idx k = Some d ->
  get_loc idx d = LocInt (Z.of_nat k).
Proof.
  intros Hnd Hk. unfold get_loc.
  rewrite (positions_of_nth_error d idx 0 k Hnd Hk). reflexivity.
Qed.

Lemma dropna_index_NoDup (df : DataFrame (option Q)) :
  NoDup (index df) -> NoDup (index (dropna df)).
Proof.
  intros Hnd. rewrite dropna_index.
  apply NoDup_map_NoDup_ForallPairs.
  - intros i j Hi Hj Heq.
    apply kept_rows_In in Hi as [Hi _]. apply kept_rows_In in Hj as [Hj _].
    exact (proj1 (NoDup_nth (index df) 0) Hnd i j Hi Hj Heq).
  - unfold kept_rows. apply NoDup_filter, seq_NoDup.
Qed.

Lemma empty_index_skips_all (self : Backtester) (md : DataFrame Q) (ev : Event) :
  index md = [] -> process_event (set_market_data self md) ev = Skipped.
Proof.
  intros Hidx. unfold process_event. simpl.
  destruct (has_column md (ticker ev)); simpl; [|reflexivity].
  rewrite Hidx. reflexivity.
Qed.

Section FetchProperties.

Variable yf_download :
  list string -> Timestamp -> Timestamp -> result (DataFrame (option Q)).
Variable log_ratio : Q -> Q -> option Q.
Variables (self : Backtester) (tickers : list string).
Variables (start_date end_date : Timestamp).
Variable data : DataFrame (option Q).

Hypothesis Hdownload :
  yf_download (tickers ++ [benchmark_ticker self]) start_date end_date = Ok data.

Let fetched : result Backtester :=
  fetch_market_data yf_download log_ratio self tickers start_date end_date.

Let md : DataFrame Q := dropna (log_returns log_ratio data).

Lemma fetched_Ok : fetched = Ok (set_market_data self md).
Proof. unfold fetched, fetch_market_data. rewrite Hdownload. reflexivity. Qed.

(** X11.  The first downloaded day never reaches the store, and [n]
    days of prices give at most [n - 1] stored days: every stored date
    is the date of a downloaded row other than the first. *)
Theorem first_day_is_never_stored :
  columns data <> [] ->
  exists self' md',
    fetched = Ok self' /\ market_data self' = Some md' /\
    (nrows md' <= nrows data - 1)%nat /\
    forall k d, nth_error (index md') k = Some d ->
      exists i, (1 <= i)%nat /\ nth_error (index data) i = Some d.
Proof.
  intros Hc. exists (set_market_data self md), md.
  split; [exact fetched_Ok|]. split; [reflexivity|].
  pose proof (kept_rows_skip_first log_ratio data Hc) as Hk.
  split.
  - unfold md, nrows at 1. rewrite dropna_index, length_map, Hk.
    etransitivity; [apply filter_length_bound|].
    rewrite length_seq. reflexivity.
  - intros k d Hd. unfold md in Hd.
    rewrite dropna_index, nth_error_map in Hd.
    destruct (nth_error (kept_rows (log_returns log_ratio data)) k)
      as [i|] eqn:Hi; [|discriminate].
    simpl in Hd. inv Hd.
    apply nth_error_In in Hi. rewrite Hk in Hi.
    apply filter_In in Hi as [Hi _]. apply in_seq in Hi.
    exists i. split; [lia|].
    apply nth_error_nth'. unfold nrows in Hi. lia.
Qed.

(** X12.  When every return from the second downloaded day on is
    defined for every symbol, nothing else is dropped: the stored index
    is the downloaded index without its first date, and the value
    stored at position [k] for a symbol is its return of downloaded
    row [k + 1]. *)
Theorem complete_prices_lose_only_first_day :
  columns data <> [] ->
  (forall c j, In c (columns data) -> (S j < nrows data)%nat ->
               cell (log_returns log_ratio data) c (S j) <> None) ->
  exists self' md',
    fetched = Ok self' /\ market_data self' = Some md' /\
    index md' = tl (index data) /\
    forall c k, In c (columns data) -> (S k < nrows data)%nat ->
      cell (log_returns log_ratio data) c (S k) = Some (cell md' c k).
Proof.
  intros Hc Hall. exists (set_market_data self md), md.
  split; [exact fetched_Ok|]. split; [reflexivity|].
  assert (Hk : kept_rows (log_returns log_ratio data)
               = seq 1 (nrows data - 1)).
  { rewrite (kept_rows_skip_first log_ratio data Hc).
    apply filter_all. intros i Hi. apply in_seq in Hi.
    apply row_complete_spec. intros c Hin.
    destruct i as [|j]; [lia|]. apply Hall; [exact Hin | lia]. }
  split.
  - unfold md. rewrite dropna_index, Hk. apply map_nth_tl.
  - intros c k Hin Hlt. unfold md.
    rewrite dropna_cell, Hk, seq_nth by lia.
    change (1 + k)%nat with (S k).
    destruct (cell (log_returns log_ratio data) c (S k)) eqn:E;
      [reflexivity | exfalso; exact (Hall c k Hin Hlt E)].
Qed.

(** X13.  A symbol for which the provider returns no price at all
    empties the store for every symbol: the stored table has no row,
    and every event row whose date cell [pd.to_datetime] parses is
    skipped when run against it. *)
Theorem symbol_without_prices_empties_store (c : string) :
  In c (columns data) ->
  (forall i, cell data c i = None) ->
  exists self' md',
    fetched = Ok self' /\ market_data self' = Some md' /\
    index md' = [] /\
    forall pd_to_datetime row date,
      pd_to_datetime (Raw.r_event_date row) = Ok date ->
      Raw.process_row pd_to_datetime self' row = Skipped.
Proof.
  intros Hin Hnone. exists (set_market_data self md), md.
  split; [exact fetched_Ok|]. split; [reflexivity|].
  assert (Hidx : index md = []).
  { unfold md. rewrite dropna_index.
    unfold kept_rows. rewrite filter_none; [reflexivity|].
    intros i _.
    destruct (row_complete (log_returns log_ratio data) i) eqn:E;
      [|reflexivity].
    exfalso. rewrite row_complete_spec in E. apply (E c Hin).
    simpl. destruct i as [|j]; [reflexivity|].
    rewrite (Hnone (S j)). reflexivity. }
  split; [exact Hidx|].
  intros pd_to_datetime row date Hdate.
  rewrite (RawFacts.process_row_parsed pd_to_datetime _ row date Hdate).
  apply empty_index_skips_all. exact Hidx.
Qed.

(** X14.  When the downloaded index has no duplicate date, neither has
    the stored index, and looking up the date stored at position [k]
    returns the integer [k]. *)
Theorem stored_dates_resolve_to_their_position :
  NoDup (index data) ->
  exists self' md',
    fetched = Ok self' /\ market_data self' = Some md' /\
    NoDup (index md') /\
    forall k d, nth_error (index md') k = Some d ->
      get_loc (index md') d = LocInt (Z.of_nat k).
Proof.
  intros Hnd. exists (set_market_data self md), md.
  split; [exact fetched_Ok|]. split; [reflexivity|].
  assert (Hnd' : NoDup (index md))
    by (apply dropna_index_NoDup; exact Hnd).
  split; [exact Hnd'|].
  intros k d Hk. exact (get_loc_nth_error _ _ _ Hnd' Hk).
Qed.

End FetchProperties.

Lemma first_day_is_never_stored_witness :
  exists self' md',
    fetch_market_data Sample.download_prices Sample.simple_log_ratio
                      Sample.bt_fresh ["X"] 1 6 = Ok self' /\
    market_data self' = Some md' /\
    (nrows md' <= nrows Sample.prices - 1)%nat.
Proof.
  destruct (first_day_is_never_stored
              Sample.download_prices Sample.simple_log_ratio
              Sample.bt_fresh ["X"] 1 6 Sample.prices eq_refl
              ltac:(discriminate))
    as (self' & md' & H1 & H2 & H3 & _).
  exists self', md'. auto.
Defined.

Lemma complete_prices_lose_only_first_day_witness :
  exists self' md',
    fetch_market_data Edge.download_prices4 Sample.simple_log_ratio
                      Sample.bt_fresh ["X"] 1 5 = Ok self' /\
    market_data self' = Some md' /\
    index md' = [2; 3; 4].
Proof.
  destruct (complete_prices_lose_only_first_day
              Edge.download_prices4 Sample.simple_log_ratio
              Sample.bt_fresh ["X"] 1 5 Edge.prices4 eq_refl
              ltac:(discriminate))
    as (self' & md' & H1 & H2 & H3 & _).
  - intros c j Hc Hj. simpl in Hc.
    assert (Hj' : (j < 3)%nat) by (change (nrows Edge.prices4) with 4%nat in Hj; lia).
    destruct Hc as [<- | [<- | []]];
      destruct j as [|[|[|j]]]; try lia; vm_compute; discriminate.
  - exists self', md'. auto.
Defined.

Lemma symbol_without_prices_empties_store_witness :
  exists self',
    fetch_market_data Edge.download_no_B Sample.simple_log_ratio
                      Sample.bt_fresh ["X"] 1 4 = Ok self' /\
    (exists md', market_data self' = Some md' /\ index md' = []) /\
    Raw.process_row RawSample.parse self' RawSample.row_mid = Skipped.
Proof.
  destruct (symbol_without_prices_empties_store
              Edge.download_no_B Sample.simple_log_ratio
              Sample.bt_fresh ["X"] 1 4 Edge.prices_no_B eq_refl "B")
    as (self' & md' & H1 & H2 & H3 & H4).
  - simpl. auto.
  - intros i. unfold Edge.prices_no_B, Sample.frame_of, cell. simpl.
    destruct i as [|[|[|[|i]]]]; reflexivity.
  - exists self'. split; [exact H1|].
    split; [exists md'; split; [exact H2 | exact H3]|].
    exact (H4 RawSample.parse RawSample.row_mid 13 eq_refl).
Defined.

Lemma stored_dates_resolve_to_their_position_witness :
  exists self' md',
    fetch_market_data Sample.download_prices Sample.simple_log_ratio
                      Sample.bt_fresh ["X"] 1 6 = Ok self' /\
    market_data self' = Some md' /\
    get_loc (index md') 5 = LocInt 1.
Proof.
  destruct (stored_dates_resolve_to_their_position
              Sample.download_prices Sample.simple_log_ratio
              Sample.bt_fresh ["X"] 1 6 Sample.prices eq_refl)
    as (self' & md' & H1 & H2 & _ & H4).
  - repeat constructor; simpl; intuition discriminate.
  - exists self', md'. split; [exact H1|]. split; [exact H2|].
    apply (H4 1%nat 5).
    inv H1. inv H2. reflexivity.
Defined.

(* ================================================================== *)
(** * Properties of the trial pipeline *)

From Stdlib Require Import Permutation.

Module PipelineFacts.

Import Pipeline.

Example extract_full :
  extract_trial PipelineSample.study_full = Ok PipelineSample.trial_full.
Proof. reflexivity. Qed.

Example extract_bare :
  extract_trial PipelineSample.study_bare = Ok PipelineSample.trial_bare.
Proof. reflexivity. Qed.

Example extract_not_a_dict : extract_trial (JNum 1) = Raise AttributeError.
Proof. reflexivity. Qed.

(** ** [fetch_trials_by_condition] *)

Lemma collect_all studies trials acc :
  Forall2 (fun s t => extract_trial s = Ok t) studies trials ->
  collect studies acc = (acc ++ trials, None).
Proof.
  intros H. revert acc.
  induction H as [|s t studies trials Hs _ IH]; intros acc; simpl.
  - rewrite app_nil_r. reflexivity.
  - rewrite Hs, IH, <- app_assoc. reflexivity.
Qed.

Lemma collect_until studies trials bad rest acc e :
  Forall2 (fun s t => extract_trial s = Ok t) studies trials ->
  extract_trial bad = Raise e ->
  collect (studies ++ bad :: rest) acc = (acc ++ trials, Some e).
Proof.
  intros H Hbad. revert acc.
  induction H as [|s t studies trials Hs _ IH]; intros acc; simpl.
  - rewrite Hbad, app_nil_r. reflexivity.
  - rewrite Hs, IH, <- app_assoc. reflexivity.
Qed.

Section FetchFacts.

Variable requests_get : string -> Params -> HttpOutcome.
Variable self : BiotechTrialPipeline.
Variables (condition phase_filter : string) (max_results : Z).

Let params : Params :=
  mkParams condition phase_filter
           "COMPLETED,ACTIVE_NOT_RECRUITING,RECRUITING"
           (Z.min max_results 1000) "json".

(** X17.  When the registry answers with a list of studies that can
    all be read, [fetch_trials_by_condition] appends one trial per
    study, in order, to [self.trials_data] and returns the frame of the
    whole list: the trials collected by earlier calls come first in the
    frame of every later call. *)
Theorem fetch_trials_accumulate
    (fields : list (string * json)) (studies : list json)
    (trials : list Trial) :
  requests_get (base_url self) params = Body (JObj fields) ->
  dict_lookup "studies" fields = Some (JArr studies) ->
  Forall2 (fun s t => extract_trial s = Ok t) studies trials ->
  fetch_trials_by_condition requests_get self condition phase_filter max_results
  = (mkPipeline (base_url self) (trials_data self ++ trials),
     Ok (DataFrame_of_records (trials_data self ++ trials))).
Proof.
  intros Hreq Hst Hall. unfold fetch_trials_by_condition.
  fold params. rewrite Hreq. simpl. rewrite Hst. simpl.
  rewrite (collect_all studies trials _ Hall). reflexivity.
Qed.

(** X18.  When a study of the answer cannot be read, the exception
    leaves [fetch_trials_by_condition] (it is not a
    [RequestException]); the trials of the studies before it have
    already been appended to [self.trials_data] and stay there, the
    studies after it are not read. *)
Theorem fetch_trials_stop_at_bad_study
    (fields : list (string * json)) (studies rest : list json)
    (bad : json) (trials : list Trial) (e : exn) :
  requests_get (base_url self) params = Body (JObj fields) ->
  dict_lookup "studies" fields = Some (JArr (studies ++ bad :: rest)) ->
  Forall2 (fun s t => extract_trial s = Ok t) studies trials ->
  extract_trial bad = Raise e ->
  fetch_trials_by_condition requests_get self condition phase_filter max_results
  = (mkPipeline (base_url self) (trials_data self ++ trials), Raise e).
Proof.
  intros Hreq Hst Hall Hbad. unfold fetch_trials_by_condition.
  fold params. rewrite Hreq. simpl. rewrite Hst. simpl.
  rewrite (collect_until studies trials bad rest _ e Hall Hbad). reflexivity.
Qed.

End FetchFacts.

Lemma fetch_trials_accumulate_witness :
  let first := fetch_trials_by_condition PipelineSample.registry_ok
                 init "cancer" "PHASE3" 100 in
  snd first
  = Ok (Table [PipelineSample.trial_full; PipelineSample.trial_bare]) /\
  snd (fetch_trials_by_condition PipelineSample.registry_ok
         (fst first) "cancer" "PHASE3" 100)
  = Ok (Table [PipelineSample.trial_full; PipelineSample.trial_bare;
               PipelineSample.trial_full; PipelineSample.trial_bare]).
Proof.
  pose proof (fetch_trials_accumulate PipelineSample.registry_ok init
                "cancer" "PHASE3" 100 _
                [PipelineSample.study_full; PipelineSample.study_bare]
                [PipelineSample.trial_full; PipelineSample.trial_bare]
                eq_refl eq_refl
                ltac:(repeat constructor)) as H1.
  cbv zeta. rewrite H1. split; [reflexivity|].
  exact (f_equal snd
           (fetch_trials_accumulate PipelineSample.registry_ok _
              "cancer" "PHASE3" 100 _
              [PipelineSample.study_full; PipelineSample.study_bare]
              [PipelineSample.trial_full; PipelineSample.trial_bare]
              eq_refl eq_refl
              ltac:(repeat constructor))).
Defined.

Lemma fetch_trials_stop_at_bad_study_witness :
  fetch_trials_by_condition PipelineSample.registry_bad init "cancer" "PHASE3" 100
  = (mkPipeline (base_url init) [PipelineSample.trial_full],
     Raise AttributeError).
Proof.
  exact (fetch_trials_stop_at_bad_study PipelineSample.registry_bad init
           "cancer" "PHASE3" 100 _
           [PipelineSample.study_full] [PipelineSample.study_bare]
           (JNum 1) [PipelineSample.trial_full] AttributeError
           eq_refl eq_refl ltac:(repeat constructor) eq_refl).
Defined.

End PipelineFacts.

Module MappingFacts.

Import Pipeline.

(** ** [map_sponsors_to_tickers] *)

Lemma tickers_of_In name mapping t :
  In t (tickers_of name mapping) <-> In (name, Some t) mapping.
Proof.
  induction mapping as [|[s tk] mapping IH]; simpl; [tauto|].
  destruct (String.eqb_spec name s) as [->|Hne].
  - destruct tk as [t'|]; simpl; rewrite IH.
    + split; intros [H|H]; auto; [left; congruence | inv H; auto].
    + split; [auto | intros [H|H]; [discriminate | exact H]].
  - rewrite IH. split; [auto | intros [H|H]; [inv H; contradiction | exact H]].
Qed.

Lemma tickers_of_absent name mapping :
  ~ In name (map fst mapping) -> tickers_of name mapping = [].
Proof.
  induction mapping as [|[s tk] mapping IH]; simpl; [reflexivity|].
  intros Hn. destruct (String.eqb_spec name s) as [->|_].
  - exfalso. apply Hn. left. reflexivity.
  - apply IH. intros H. apply Hn. right. exact H.
Qed.

Lemma tickers_of_unique name mapping :
  NoDup (map fst mapping) -> (length (tickers_of name mapping) <= 1)%nat.
Proof.
  induction mapping as [|[s tk] mapping IH]; simpl; intros Hnd; [lia|].
  inversion Hnd as [|? ? Hs Hnd']; subst.
  destruct (String.eqb_spec name s) as [->|_]; [|apply IH; exact Hnd'].
  rewrite (tickers_of_absent s mapping Hs).
  destruct tk; simpl; lia.
Qed.

Section MappingTheorems.

Variable R : Type.
Variable sponsor_of : R -> string.
Variable read_csv : string -> CsvOutcome.
Variable mapping_file : string.

(** The sponsor of the row is listed in the mapping with a ticker. *)
Let listed (mapping : list MappingRow) (r : R) : bool :=
  match tickers_of (sponsor_of r) mapping with
  | [] => false
  | _ :: _ => true
  end.

(** X21.  When the mapping file can be read, the rows returned for a
    frame of trials are exactly the pairs of a trial and a ticker that
    the mapping lists for that trial's sponsor name (compared as exact
    strings): a trial whose sponsor is not listed, or listed with an
    empty ticker only, is dropped.  When no sponsor occurs twice in the
    mapping, every trial is returned at most once and the listed trials
    keep their order. *)
Theorem mapping_is_an_inner_join
    (mapping : list MappingRow) (trials : list R) :
  read_csv mapping_file = Csv mapping ->
  exists matched,
    map_sponsors_to_tickers R sponsor_of read_csv (Table trials) mapping_file
    = Ok (Table matched) /\
    (forall r t, In (r, t) matched <->
                 In r trials /\ In (sponsor_of r, Some t) mapping) /\
    (NoDup (map fst mapping) ->
     map fst matched = filter (listed mapping) trials /\
     (length matched <= length trials)%nat).
Proof.
  intros Hcsv. unfold map_sponsors_to_tickers. rewrite Hcsv.
  eexists. split; [reflexivity|]. split.
  - intros r t. rewrite in_flat_map. split.
    + intros (r' & Hr' & Hin). apply in_map_iff in Hin as (t' & Heq & Ht').
      inv Heq. split; [exact Hr'|]. apply tickers_of_In. exact Ht'.
    + intros [Hr Hm]. exists r. split; [exact Hr|].
      apply in_map_iff. exists t. split; [reflexivity|].
      apply tickers_of_In. exact Hm.
  - intros Hnd.
    assert (Hfst : map fst
                     (flat_map (fun r => map (fun t => (r, t))
                                  (tickers_of (sponsor_of r) mapping)) trials)
                   = filter (listed mapping) trials).
    { induction trials as [|r trials' IH]; simpl; [reflexivity|].
      rewrite map_app, IH. unfold listed at 2.
      pose proof (tickers_of_unique (sponsor_of r) mapping Hnd) as Hlen.
      destruct (tickers_of (sponsor_of r) mapping) as [|t [|t' l]];
        simpl in *; [reflexivity | reflexivity | lia]. }
    split; [exact Hfst|].
    rewrite <- (length_map fst), Hfst.
    clear. induction trials as [|r trials' IH]; simpl; [lia|].
    destruct (listed mapping r); simpl; lia.
Qed.

End MappingTheorems.

Lemma mapping_is_an_inner_join_witness :
  exists matched,
    map_sponsors_to_tickers Trial PipelineSample.sponsor_text
      PipelineSample.csv_present
      (Table [PipelineSample.trial_bare; PipelineSample.trial_full])
      "sponsor_ticker_map.csv"
    = Ok (Table matched) /\
    In (PipelineSample.trial_full, "PFE") matched /\
    map fst matched = [PipelineSample.trial_full].
Proof.
  destruct (mapping_is_an_inner_join Trial PipelineSample.sponsor_text
              PipelineSample.csv_present "sponsor_ticker_map.csv"
              PipelineSample.mapping
              [PipelineSample.trial_bare; PipelineSample.trial_full] eq_refl)
    as (matched & Hrun & Hin & Hunique).
  exists matched. split; [exact Hrun|]. split.
  - apply Hin. simpl. auto.
  - refine (proj1 (Hunique _)).
    repeat constructor; simpl; intuition discriminate.
Defined.

End MappingFacts.

Module UpcomingFacts.

Import Pipeline.
Import PipelineSample.

(** ** [filter_upcoming_events] *)

Section Sorting.

Variable R : Type.

Lemma insert_by_date_perm (x : R * Instant) l :
  Permutation (x :: l) (insert_by_date x l).
Proof.
  induction l as [|y l IH]; simpl; [reflexivity|].
  destruct (snd x <=? snd y); [reflexivity|].
  rewrite perm_swap. constructor. exact IH.
Qed.

Lemma sort_by_date_perm (l : list (R * Instant)) :
  Permutation (sort_by_date l) l.
Proof.
  induction l as [|x l IH]; simpl; [constructor|].
  rewrite <- insert_by_date_perm. constructor. exact IH.
Qed.

Lemma insert_by_date_sorted (x : R * Instant) l :
  StronglySorted by_date l -> StronglySorted by_date (insert_by_date x l).
Proof.
  induction 1 as [|y l Hs IH Hall]; simpl.
  - repeat constructor.
  - destruct (Z.leb_spec (snd x) (snd y)) as [Hle | Hgt].
    + constructor; [constructor; assumption|].
      constructor; [exact Hle|].
      rewrite Forall_forall in *. intros z Hz.
      unfold by_date in *. specialize (Hall z Hz). lia.
    + constructor; [exact IH|].
      apply (Permutation_Forall (insert_by_date_perm x l)).
      constructor; [unfold by_date; lia | exact Hall].
Qed.

Lemma sort_by_date_sorted (l : list (R * Instant)) :
  StronglySorted by_date (sort_by_date l).
Proof.
  induction l as [|x l IH]; simpl; [constructor|].
  apply insert_by_date_sorted. exact IH.
Qed.

Lemma select_upcoming_In today cutoff rows dates (r : R) d :
  In (r, d) (select_upcoming today cutoff rows dates) <->
  exists k, nth_error rows k = Some r /\
            nth_error dates k = Some (Some d) /\
            today <= d <= cutoff.
Proof.
  revert dates. induction rows as [|r0 rows IH]; intros dates.
  - simpl. split; [tauto|]. intros (k & Hk & _). destruct k; discriminate.
  - destruct dates as [|[d0|] dates]; simpl.
    + split; [tauto|]. intros (k & _ & Hk & _). destruct k; discriminate.
    + destruct (Z.leb_spec today d0) as [H1|H1];
        destruct (Z.leb_spec d0 cutoff) as [H2|H2]; simpl; rewrite IH;
        (split;
         [ intros H;
           try (destruct H as [H|H];
                [inv H; exists 0%nat; simpl; repeat split; auto; lia|]);
           destruct H as (k & Ha & Hb & Hc); exists (S k); simpl; auto
         | intros (k & Ha & Hb & Hc); destruct k as [|k]; simpl in *;
           [ inv Ha; inv Hb; try lia; left; reflexivity
           | try right; exists k; auto ] ]).
    + rewrite IH. split.
      * intros (k & Ha & Hb & Hc). exists (S k). simpl. auto.
      * intros (k & Ha & Hb & Hc). destruct k as [|k]; simpl in *;
          [discriminate | exists k; auto].
Qed.

Lemma select_upcoming_length today cutoff (rows : list R) dates :
  (length (select_upcoming today cutoff rows dates) <= length rows)%nat.
Proof.
  revert dates. induction rows as [|r rows IH]; intros dates; simpl; [lia|].
  destruct dates as [|[d|] dates]; simpl; try lia.
  - destruct ((today <=? d) && (d <=? cutoff)); simpl;
      specialize (IH dates); lia.
  - specialize (IH dates). lia.
Qed.

End Sorting.

Section UpcomingTheorems.

Variable R : Type.
Variable cell_of : R -> json.
Variable to_datetime : list json -> result DatetimeColumn.
Variable now : Instant.
Variable out_of_bounds : exn.
Variable sort_values : list (R * Instant) -> list (R * Instant).

(** What [sort_values] promises: the same rows, in ascending order of
    the date. *)
Hypothesis sort_values_perm : forall l, Permutation (sort_values l) l.
Hypothesis sort_values_sorted : forall l, StronglySorted by_date (sort_values l).

(** X22.  On a frame with a [completion_date] column whose parsed dates
    carry no time zone, and for a [days_ahead] such that neither
    [pd.Timedelta(days=days_ahead)] nor [today] plus it leaves the
    64-bit range of nanoseconds, [filter_upcoming_events] returns a
    frame.  Its rows are in ascending order of their parsed date; a row
    is returned, once per occurrence, exactly when its date could be
    parsed and lies between [now] and [now + days_ahead] days, both
    included; rows whose date is missing or unparsable never appear,
    and nothing is returned for a negative [days_ahead]. *)
Theorem upcoming_events_sorted_within_window
    (rows : list R) (days_ahead : Z) (dates : list (option Instant)) :
  to_datetime (map cell_of rows) = Ok (Naive dates) ->
  in_bounds (days_ahead * 86400000000000) = true ->
  in_bounds (now + days_ahead * 86400000000000) = true ->
  let cutoff := now + days_ahead * 86400000000000 in
  exists upcoming,
    filter_upcoming_events R (Some cell_of) to_datetime now out_of_bounds
      sort_values (Table rows) days_ahead = Ok (Table upcoming) /\
    StronglySorted by_date upcoming /\
    Permutation upcoming (select_upcoming now cutoff rows dates) /\
    (forall r d, In (r, d) upcoming <->
       exists k, nth_error rows k = Some r /\
                 nth_error dates k = Some (Some d) /\
                 now <= d <= cutoff) /\
    (length upcoming <= length rows)%nat /\
    (days_ahead < 0 -> upcoming = []).
Proof.
  intros Hparse Hdelta Hsum cutoff.
  exists (sort_values (select_upcoming now cutoff rows dates)).
  pose proof (sort_values_perm (select_upcoming now cutoff rows dates)) as Hp.
  assert (Hin : forall r d,
             In (r, d) (sort_values (select_upcoming now cutoff rows dates)) <->
             exists k, nth_error rows k = Some r /\
                       nth_error dates k = Some (Some d) /\
                       now <= d <= cutoff).
  { intros r d. rewrite <- select_upcoming_In. split; intros H.
    - exact (Permutation_in _ Hp H).
    - exact (Permutation_in _ (Permutation_sym Hp) H). }
  split.
  { unfold filter_upcoming_events, bind, Timedelta_days, Timestamp_add.
    rewrite Hparse. cbv zeta. rewrite Hdelta, Hsum. reflexivity. }
  split; [apply sort_values_sorted|].
  split; [exact Hp|].
  split; [exact Hin|].
  split.
  - rewrite (Permutation_length Hp). apply select_upcoming_length.
  - intros Hneg.
    destruct (sort_values (select_upcoming now cutoff rows dates))
      as [|[r d] l] eqn:E; [reflexivity|].
    exfalso. destruct (proj1 (Hin r d) (or_introl eq_refl)) as (k & _ & _ & Hd).
    unfold cutoff in Hd. lia.
Qed.

End UpcomingTheorems.

Lemma upcoming_events_sorted_within_window_witness :
  filter_upcoming_events string (Some date_cell) parse_known 0 ValueError
    sort_by_date (Table ["later"; "far"; "unknown"; "soon"]) 180
  = Ok (Table [("soon", 5 * 86400000000000); ("later", 90 * 86400000000000)]).
Proof.
  destruct (upcoming_events_sorted_within_window
              string date_cell parse_known 0 ValueError sort_by_date
              (sort_by_date_perm string) (sort_by_date_sorted string)
              ["later"; "far"; "unknown"; "soon"] 180 _
              eq_refl eq_refl eq_refl)
    as (upcoming & Hrun & _).
  rewrite Hrun. vm_compute in Hrun. inversion Hrun. reflexivity.
Defined.

End UpcomingFacts.
